(** * Fair Weather: scoring engine and monitoring state machine

    A shallow embedding of [src/lib/scoring.ts] (curve interpolation,
    daylight and darkness models, the mode scorer, the forecast hour
    resolver and the alternative-slot search) and of the durable object
    [ScheduledRun] ([src/durable-objects/scheduled-run.ts]), followed by the
    properties established about them.

    Conventions of the embedding.
    - A JavaScript [number] that carries data is an exact rational ([Q]);
      [num] adds the one non-finite value the code can meet on its inputs:
      [None] stands for [NaN], which is also what [undefined] (an array read
      past its end) becomes in arithmetic and comparisons.  Every comparison
      with [None] is false, as in JavaScript.
    - Epoch milliseconds are integers; [msnum] adds [NaN] (the time value of
      an invalid [Date]).
    - The arithmetic on [Q] is exact, that of the code is on doubles.  The
      two agree on the tests against the integer breakpoints and on the
      integer arithmetic of times; they can differ in the last binary
      places of a weighted sum or of a difference of scores, which shows
      only where [Math.round] meets a tie or a threshold is met exactly.
      The properties that would turn on such a place say so.
    - Exceptions are explicit: a function that can throw returns a [result].
    - [Date] parsing and formatting and [Date.now()] belong to the runtime;
      they are parameters of the development. *)

From Stdlib Require Import ZArith QArith Qround Qminmax Qabs.
From Stdlib Require Import List String Ascii Bool Sorted Lia Lqa.
Import ListNotations.

Open Scope Q_scope.

(** ** Exceptions *)

Inductive exn : Type :=
| TypeError      (* property read on undefined *)
| RangeError     (* toISOString on an invalid Date *)
| FetchError     (* Open-Meteo transport or HTTP error *)
| SendError.     (* Resend transport or HTTP error *)

Inductive result (A : Type) : Type :=
| Ok (a : A)
| Throw (e : exn).

Arguments Ok {A} a.
Arguments Throw {A} e.

Definition bind {A B : Type} (m : result A) (k : A -> result B) : result B :=
  match m with
  | Ok a => k a
  | Throw e => Throw e
  end.

Definition fmap {A B : Type} (f : A -> B) (m : result A) : result B :=
  bind m (fun a => Ok (f a)).

Notation "x <- m ;; k" := (bind m (fun x => k))
  (at level 61, m at next level, right associativity).
Notation "f <$> m" := (fmap f m) (at level 60, right associativity).

(** ** Numbers *)

Definition num : Type := option Q.

(** [a <= b] and [a >= b] of JavaScript with a possibly-NaN left operand. *)
Definition num_le (a : num) (b : Q) : bool :=
  match a with
  | Some x => Qle_bool x b
  | None => false
  end.

Definition num_ge (a : num) (b : Q) : bool :=
  match a with
  | Some x => Qle_bool b x
  | None => false
  end.

(** [Math.round]: the nearest integer, halves towards plus infinity. *)
Definition Math_round (x : Q) : Q := inject_Z (Qfloor (x + 0.5)).

(** [a ?? d] *)
Definition nullish {A : Type} (a : option A) (d : A) : A :=
  match a with
  | Some v => v
  | None => d
  end.

(** ** Data model *)

Inductive Mode : Type := running | walking | cycling | stargazing | dog_walking.

(** [a === b] on modes *)
Definition Mode_eqb (a b : Mode) : bool :=
  match a, b with
  | running, running | walking, walking | cycling, cycling
  | stargazing, stargazing | dog_walking, dog_walking => true
  | _, _ => false
  end.

Inductive Rating : Type := Excellent | Good | Fair | Poor.

Record HourlyData : Type := mkHourlyData {
  time : string;
  temperature : num;
  humidity : num;
  feels_like : num;
  weather_code : num;
  wind_speed : num;
  uv_index : num;
  precipitation_probability : num;
  is_daylight : bool;
  daylight_factor : Q;
  cloud_cover : option Q;
  visibility : option Q
}.

(** [ScoredHour extends HourlyData]: the hour's fields, then the two new ones. *)
Record ScoredHour : Type := mkScoredHour {
  hour : HourlyData;
  score : Q;
  rating : Rating
}.

(** ** Curve interpolator *)

(** [clamp(v, lo = 0, hi = 100)]; every call in the source uses the defaults. *)
Definition clamp_between (v lo hi : Q) : Q := Qmax lo (Qmin hi v).
Definition clamp (v : Q) : Q := clamp_between v 0 100.

(** The [for] loop of [interpolate] over the consecutive pairs
    [bp[i], bp[i+1]]; [fallback] is the value returned after the loop. *)
Fixpoint interpolate_loop (value : num) (bp : list (Q * Q)) (fallback : Q) : Q :=
  match bp with
  | (x0, y0) :: (((x1, y1) :: _) as rest) =>
      match value with
      | Some v =>
          if Qle_bool x0 v && Qle_bool v x1 then
            let t := if negb (Qeq_bool x1 x0) then (v - x0) / (x1 - x0) else 0 in
            y0 + t * (y1 - y0)
          else interpolate_loop value rest fallback
      | None => interpolate_loop value rest fallback
      end
  | _ => fallback
  end.

Definition interpolate (value : num) (bp : list (Q * Q)) : result Q :=
  match bp with
  | [] => Throw TypeError                     (* bp[0][0] on an empty table *)
  | (x0, y0) :: _ =>
      let '(xn, yn) := last bp (x0, y0) in
      Ok (if num_le value x0 then y0
          else if num_ge value xn then yn
          else interpolate_loop value bp yn)
  end.

Definition scoreTempRunning (v : num) : result Q :=
  clamp <$> interpolate v [(10, 0); (20, 15); (30, 45); (40, 75); (50, 100); (60, 100); (70, 75); (80, 45); (90, 15); (100, 0)].

Definition scoreTempWalking (v : num) : result Q :=
  clamp <$> interpolate v [(15, 0); (25, 10); (35, 30); (45, 60); (55, 100); (70, 100); (80, 70); (85, 45); (95, 15); (105, 0)].

Definition scoreHumidity (v : num) : result Q :=
  clamp <$> interpolate v [(0, 70); (30, 100); (50, 100); (65, 75); (80, 45); (85, 15); (100, 0)].

Definition scoreUV (v : num) : result Q :=
  clamp <$> interpolate v [(0, 100); (2, 100); (5, 75); (7, 45); (8, 15); (11, 0)].

Definition scoreWindRunning (v : num) : result Q :=
  clamp <$> interpolate v [(0, 100); (8, 100); (15, 75); (25, 45); (35, 15); (50, 0)].

Definition scoreWindWalking (v : num) : result Q :=
  clamp <$> interpolate v [(0, 100); (6, 100); (12, 75); (20, 45); (30, 15); (45, 0)].

Definition scoreTempCycling (v : num) : result Q :=
  clamp <$> interpolate v [(15, 0); (25, 10); (35, 30); (45, 60); (55, 100); (75, 100); (85, 65); (90, 40); (100, 10); (110, 0)].

Definition scoreWindCycling (v : num) : result Q :=
  clamp <$> interpolate v [(0, 100); (5, 100); (8, 80); (12, 55); (15, 35); (18, 20); (22, 8); (30, 0)].

Definition scorePrecip (v : num) : result Q :=
  clamp <$> interpolate v [(0, 100); (5, 100); (15, 80); (30, 55); (50, 30); (70, 12); (100, 0)].

Definition scorePrecipCycling (v : num) : result Q :=
  clamp <$> interpolate v [(0, 100); (5, 100); (20, 70); (40, 35); (60, 15); (80, 5); (100, 0)].

Definition scoreTempStargazing (v : num) : result Q :=
  clamp <$> interpolate v [(0, 0); (15, 10); (25, 30); (35, 60); (45, 90); (55, 100); (65, 100); (75, 85); (85, 50); (95, 20); (105, 0)].

Definition scoreWindStargazing (v : num) : result Q :=
  clamp <$> interpolate v [(0, 100); (5, 100); (10, 85); (15, 60); (20, 35); (25, 15); (35, 0)].

Definition scoreHumidityStargazing (v : num) : result Q :=
  clamp <$> interpolate v [(0, 100); (30, 100); (50, 90); (60, 70); (70, 50); (80, 25); (90, 10); (100, 0)].

Definition scoreCloudCover (v : num) : result Q :=
  clamp <$> interpolate v [(0, 100); (10, 95); (20, 80); (30, 60); (50, 35); (70, 15); (85, 5); (100, 0)].

Definition scoreVisibility (v : num) : result Q :=
  clamp <$> interpolate v [(1000, 0); (5000, 30); (10000, 60); (20000, 85); (40000, 100); (100000, 100)].

Definition scoreTempDogWalking (v : num) : result Q :=
  clamp <$> interpolate v [(10, 5); (20, 20); (30, 45); (40, 70); (50, 100); (65, 100); (75, 70); (82, 40); (90, 10); (100, 0)].

Definition scoreUVDogWalking (v : num) : result Q :=
  clamp <$> interpolate v [(0, 100); (2, 100); (4, 75); (6, 40); (8, 10); (10, 0)].

Definition scorePavement (v : num) : result Q :=
  clamp <$> interpolate v [(30, 60); (40, 80); (50, 100); (77, 100); (100, 65); (115, 35); (125, 10); (135, 0)].

Definition estimatePavementTemp (airTempF uvIndex : num) (cloudCover : option Q) : num :=
  let maxBoost := 50 in
  match airTempF, uvIndex with
  | Some air, Some uv =>
      let boost := (uv / 11) * (1 - nullish cloudCover 50 / 100) * maxBoost in
      Some (air + boost)
  | _, _ => None
  end.

(** ** Weather-code tables *)

Definition WEATHER_CODE_SCORES : list (Q * Q) :=
  [(0, 100); (1, 95); (2, 90); (3, 75); (45, 55); (48, 50); (51, 35); (53, 25); (55, 15); (56, 2); (57, 0);
   (61, 15); (63, 8); (65, 2); (66, 0); (67, 0); (71, 15); (73, 5); (75, 2); (77, 8);
   (80, 15); (81, 8); (82, 2); (85, 8); (86, 2); (95, 5); (96, 0); (99, 0)].

Definition WEATHER_CODE_SCORES_CYCLING : list (Q * Q) :=
  [(0, 100); (1, 95); (2, 90); (3, 75); (45, 15); (48, 10); (51, 35); (53, 25); (55, 15); (56, 2); (57, 0);
   (61, 15); (63, 8); (65, 3); (66, 0); (67, 0); (71, 20); (73, 8); (75, 0); (77, 10);
   (80, 15); (81, 8); (82, 3); (85, 10); (86, 2); (95, 3); (96, 0); (99, 0)].

Definition WEATHER_CODE_SCORES_STARGAZING : list (Q * Q) :=
  [(0, 100); (1, 90); (2, 60); (3, 20); (45, 5); (48, 5);
   (51, 5); (53, 2); (55, 0); (56, 0); (57, 0);
   (61, 2); (63, 0); (65, 0); (66, 0); (67, 0);
   (71, 5); (73, 2); (75, 0); (77, 2);
   (80, 5); (81, 2); (82, 0); (85, 2); (86, 0);
   (95, 0); (96, 0); (99, 0)].

Definition WEATHER_CODE_SCORES_DOG_WALKING : list (Q * Q) :=
  [(0, 100); (1, 95); (2, 90); (3, 75); (45, 55); (48, 50);
   (51, 35); (53, 25); (55, 15); (56, 0); (57, 0);
   (61, 15); (63, 8); (65, 2); (66, 0); (67, 0);
   (71, 5); (73, 0); (75, 0); (77, 2);
   (80, 15); (81, 8); (82, 2); (85, 2); (86, 0);
   (95, 5); (96, 0); (99, 0)].

Fixpoint assocQ (k : Q) (tbl : list (Q * Q)) : option Q :=
  match tbl with
  | [] => None
  | (k', v) :: tl => if Qeq_bool k k' then Some v else assocQ k tl
  end.

(** [TABLE[c]]: the property whose key is the number [c] written out; the
    keys are small integers, so a key matches exactly when it equals [c]. *)
Definition record_get (tbl : list (Q * Q)) (c : num) : option Q :=
  match c with
  | Some q => assocQ q tbl
  | None => None
  end.

Definition scoreWeatherCode (c : num) : Q := nullish (record_get WEATHER_CODE_SCORES c) 50.
Definition scoreWeatherCodeCycling (c : num) : Q := nullish (record_get WEATHER_CODE_SCORES_CYCLING c) 50.
Definition scoreWeatherCodeStargazing (c : num) : Q := nullish (record_get WEATHER_CODE_SCORES_STARGAZING c) 50.
Definition scoreWeatherCodeDogWalking (c : num) : Q := nullish (record_get WEATHER_CODE_SCORES_DOG_WALKING c) 50.

(** ** Weight tables *)

Definition WEIGHTS : list (string * Q) :=
  [("temperature", 0.25);
   ("feels_like", 0.20);
   ("humidity", 0.15);
   ("uv_index", 0.10);
   ("wind_speed", 0.10);
   ("precipitation_probability", 0.10);
   ("weather_code", 0.10)]%string.

Definition WEIGHTS_DOG_WALKING : list (string * Q) :=
  [("temperature", 0.15);
   ("feels_like", 0.10);
   ("pavement_temperature", 0.20);
   ("humidity", 0.10);
   ("uv_index", 0.15);
   ("wind_speed", 0.05);
   ("precipitation_probability", 0.10);
   ("weather_code", 0.15)]%string.

Definition WEIGHTS_STARGAZING : list (string * Q) :=
  [("cloud_cover", 0.35);
   ("weather_code", 0.15);
   ("temperature", 0.15);
   ("wind_speed", 0.10);
   ("humidity", 0.10);
   ("precipitation_probability", 0.10);
   ("visibility", 0.05)]%string.

(** ** Mode scorer *)

Fixpoint assoc (k : string) (o : list (string * Q)) : option Q :=
  match o with
  | [] => None
  | (k', v) :: tl => if String.eqb k k' then Some v else assoc k tl
  end.

(** [sub[k]] for a key [k] of the weight table.  Each [sub] record is built
    with exactly the keys of its weight table ([weights_keys_bound] below),
    so the default is never used. *)
Definition prop (sub : list (string * Q)) (k : string) : Q := nullish (assoc k sub) 0.

(** [for (const k of Object.keys(W)) composite += sub[k] * W[k]] *)
Definition weighted_sum (sub W : list (string * Q)) : Q :=
  fold_left (fun composite kw => composite + prop sub (fst kw) * snd kw) W 0.

Definition rating_of (composite : Q) : Rating :=
  if Qle_bool 80 composite then Excellent
  else if Qle_bool 65 composite then Good
  else if Qle_bool 45 composite then Fair
  else Poor.

(** The four statements that close each branch of [computeScore]. *)
Definition scored (h : HourlyData) (sub W : list (string * Q)) : ScoredHour :=
  let composite := weighted_sum sub W in
  let composite := composite * daylight_factor h in
  let composite := Math_round (composite * 10) / 10 in
  mkScoredHour h composite (rating_of composite).

Definition sub_stargazing (h : HourlyData) : result (list (string * Q)) :=
  s_cloud <- scoreCloudCover (Some (nullish (cloud_cover h) 50)) ;;
  s_temp <- scoreTempStargazing (temperature h) ;;
  s_wind <- scoreWindStargazing (wind_speed h) ;;
  s_hum <- scoreHumidityStargazing (humidity h) ;;
  s_precip <- scorePrecip (precipitation_probability h) ;;
  s_vis <- scoreVisibility (Some (nullish (visibility h) 20000)) ;;
  Ok [("cloud_cover", s_cloud);
      ("weather_code", scoreWeatherCodeStargazing (weather_code h));
      ("temperature", s_temp);
      ("wind_speed", s_wind);
      ("humidity", s_hum);
      ("precipitation_probability", s_precip);
      ("visibility", s_vis)]%string.

Definition sub_dog_walking (h : HourlyData) : result (list (string * Q)) :=
  let pavementTemp := estimatePavementTemp (temperature h) (uv_index h) (cloud_cover h) in
  s_temp <- scoreTempDogWalking (temperature h) ;;
  s_feels <- scoreTempDogWalking (feels_like h) ;;
  s_pave <- scorePavement pavementTemp ;;
  s_hum <- scoreHumidity (humidity h) ;;
  s_uv <- scoreUVDogWalking (uv_index h) ;;
  s_wind <- scoreWindWalking (wind_speed h) ;;
  s_precip <- scorePrecip (precipitation_probability h) ;;
  Ok [("temperature", s_temp);
      ("feels_like", s_feels);
      ("pavement_temperature", s_pave);
      ("humidity", s_hum);
      ("uv_index", s_uv);
      ("wind_speed", s_wind);
      ("precipitation_probability", s_precip);
      ("weather_code", scoreWeatherCodeDogWalking (weather_code h))]%string.

Definition sub_default (h : HourlyData) (mode : Mode) : result (list (string * Q)) :=
  let scoreTemp := match mode with
                   | cycling => scoreTempCycling
                   | running => scoreTempRunning
                   | _ => scoreTempWalking
                   end in
  let scoreWind := match mode with
                   | cycling => scoreWindCycling
                   | running => scoreWindRunning
                   | _ => scoreWindWalking
                   end in
  let precipFn := match mode with cycling => scorePrecipCycling | _ => scorePrecip end in
  let weatherCodeFn := match mode with cycling => scoreWeatherCodeCycling | _ => scoreWeatherCode end in
  s_temp <- scoreTemp (temperature h) ;;
  s_feels <- scoreTemp (feels_like h) ;;
  s_hum <- scoreHumidity (humidity h) ;;
  s_uv <- scoreUV (uv_index h) ;;
  s_wind <- scoreWind (wind_speed h) ;;
  s_precip <- precipFn (precipitation_probability h) ;;
  Ok [("temperature", s_temp);
      ("feels_like", s_feels);
      ("humidity", s_hum);
      ("uv_index", s_uv);
      ("wind_speed", s_wind);
      ("precipitation_probability", s_precip);
      ("weather_code", weatherCodeFn (weather_code h))]%string.

(** The [sub] record and the weight table of the branch [computeScore] takes. *)
Definition sub_scores (h : HourlyData) (mode : Mode) : result (list (string * Q)) :=
  match mode with
  | stargazing => sub_stargazing h
  | dog_walking => sub_dog_walking h
  | _ => sub_default h mode
  end.

Definition weights_of (mode : Mode) : list (string * Q) :=
  match mode with
  | stargazing => WEIGHTS_STARGAZING
  | dog_walking => WEIGHTS_DOG_WALKING
  | _ => WEIGHTS
  end.

Definition computeScore (h : HourlyData) (mode : Mode) : result ScoredHour :=
  match mode with
  | stargazing =>
      sub <- sub_stargazing h ;;
      Ok (scored h sub WEIGHTS_STARGAZING)
  | dog_walking =>
      sub <- sub_dog_walking h ;;
      Ok (scored h sub WEIGHTS_DOG_WALKING)
  | _ =>
      sub <- sub_default h mode ;;
      Ok (scored h sub WEIGHTS)
  end.

(** ** Time values *)

(** Epoch milliseconds, or [None] for the [NaN] of an invalid [Date]. *)
Definition msnum : Type := option Z.

Definition ms_le (a b : msnum) : bool :=
  match a, b with Some x, Some y => (x <=? y)%Z | _, _ => false end.
Definition ms_lt (a b : msnum) : bool :=
  match a, b with Some x, Some y => (x <? y)%Z | _, _ => false end.
Definition ms_ge (a b : msnum) : bool := ms_le b a.
Definition ms_gt (a b : msnum) : bool := ms_lt b a.
(** [a === b]: [NaN] equals nothing. *)
Definition ms_eq (a b : msnum) : bool :=
  match a, b with Some x, Some y => (x =? y)%Z | _, _ => false end.
Definition ms_add (a b : msnum) : msnum :=
  match a, b with Some x, Some y => Some (x + y)%Z | _, _ => None end.
Definition ms_sub (a b : msnum) : msnum :=
  match a, b with Some x, Some y => Some (x - y)%Z | _, _ => None end.
Definition ms_abs (a : msnum) : msnum := option_map Z.abs a.
Definition ms_min (a b : msnum) : msnum :=
  match a, b with Some x, Some y => Some (Z.min x y) | _, _ => None end.
Definition ms_max (a b : msnum) : msnum :=
  match a, b with Some x, Some y => Some (Z.max x y) | _, _ => None end.

(** [s.slice(0, n)] *)
Definition slice0 (n : nat) (s : string) : string := substring 0 n s.

(** ** A runtime instance: [Date] with UTC as the local time zone

    The development is parametric in [Date]; this instance is the one the
    concrete evaluations below use.  It reads the timestamps Open-Meteo
    sends, [YYYY-MM-DDTHH:MM], as UTC (the local zone of the Workers
    runtime), answers [NaN] on anything else, and prints years 0 to 9999. *)
Module UTC.

Open Scope Z_scope.

Definition digit (c : ascii) : option Z :=
  let n := Z.of_nat (nat_of_ascii c) in
  if (48 <=? n) && (n <=? 57) then Some (n - 48) else None.

Fixpoint digits (acc : Z) (s : string) : option Z :=
  match s with
  | EmptyString => Some acc
  | String c s' =>
      match digit c with
      | Some d => digits (acc * 10 + d) s'
      | None => None
      end
  end.

Definition days_from_civil (y m d : Z) : Z :=
  let y := if m <=? 2 then y - 1 else y in
  let era := y / 400 in
  let yoe := y - era * 400 in
  let doy := (153 * (if 2 <? m then m - 3 else m + 9) + 2) / 5 + d - 1 in
  let doe := yoe * 365 + yoe / 4 - yoe / 100 + doy in
  era * 146097 + doe - 719468.

Definition civil_from_days (z : Z) : Z * Z * Z :=
  let z := z + 719468 in
  let era := z / 146097 in
  let doe := z - era * 146097 in
  let yoe := (doe - doe / 1460 + doe / 36524 - doe / 146096) / 365 in
  let doy := doe - (365 * yoe + yoe / 4 - yoe / 100) in
  let mp := (5 * doy + 2) / 153 in
  let d := doy - (153 * mp + 2) / 5 + 1 in
  let m := if mp <? 10 then mp + 3 else mp - 9 in
  (if m <=? 2 then yoe + era * 400 + 1 else yoe + era * 400, m, d).

Definition between (lo hi v : Z) : bool := (lo <=? v) && (v <=? hi).

(** [new Date(s).getTime()] *)
Definition getTime (s : string) : msnum :=
  if negb (Nat.eqb (String.length s) 16) then None else
  if negb (String.eqb (substring 4 1 s) "-" && String.eqb (substring 7 1 s) "-"
           && String.eqb (substring 10 1 s) "T" && String.eqb (substring 13 1 s) ":")
  then None else
  match digits 0 (substring 0 4 s), digits 0 (substring 5 2 s), digits 0 (substring 8 2 s),
        digits 0 (substring 11 2 s), digits 0 (substring 14 2 s) with
  | Some y, Some m, Some d, Some hh, Some mm =>
      if between 1 12 m && between 1 31 d && between 0 23 hh && between 0 59 mm
      then Some ((days_from_civil y m d * 86400 + hh * 3600 + mm * 60) * 1000)
      else None
  | _, _, _, _, _ => None
  end.

Definition digit_char (d : Z) : ascii := ascii_of_nat (48 + Z.to_nat d).

Definition pad2 (n : Z) : string :=
  String (digit_char (n / 10 mod 10)) (String (digit_char (n mod 10)) EmptyString).
Definition pad3 (n : Z) : string :=
  String (digit_char (n / 100 mod 10)) (pad2 n).
Definition pad4 (n : Z) : string :=
  String (digit_char (n / 1000 mod 10)) (pad3 n).

(** [new Date(ms).toISOString()] *)
Definition toISOString (ms : Z) : string :=
  let days := ms / 86400000 in
  let rest := ms mod 86400000 in
  let '(y, m, d) := civil_from_days days in
  (pad4 y ++ "-" ++ pad2 m ++ "-" ++ pad2 d ++ "T"
   ++ pad2 (rest / 3600000) ++ ":" ++ pad2 (rest / 60000 mod 60) ++ ":"
   ++ pad2 (rest / 1000 mod 60) ++ "." ++ pad3 (rest mod 1000) ++ "Z")%string.

End UTC.

Section FairWeather.

(** The runtime's [Date]: [new Date(s).getTime()], which is [NaN] when
    [s] does not parse, and [new Date(ms).toISOString()]. *)
Variable Date_getTime : string -> msnum.
Variable Date_toISOString : Z -> string.

(** [new Date(s).getTime()] where [s] may be [undefined]. *)
Definition getTime_of (s : option string) : msnum :=
  match s with
  | Some s => Date_getTime s
  | None => None
  end.

(** ** Daylight model *)

(** One element of [dailyList]. *)
Record DayRow : Type := mkDayRow {
  date : string;
  sunrise : option string;
  sunset : option string
}.

(** The object [{ is_daylight, daylight_factor }] both models return. *)
Record Daylight : Type := mkDaylight {
  dl_is_daylight : bool;
  dl_daylight_factor : Q
}.

Definition twilight : msnum := Some (30 * 60 * 1000)%Z.

Definition find_day (dateStr : string) (dailyList : list DayRow) : option DayRow :=
  find (fun d => String.eqb (date d) dateStr) dailyList.

Definition computeDarkness (hourISO : string) (dailyList : list DayRow) : Daylight :=
  let hdt := Date_getTime hourISO in
  let dateStr := slice0 10 hourISO in
  match find_day dateStr dailyList with
  | None => mkDaylight false 0.05
  | Some day =>
      let sr := getTime_of (sunrise day) in
      let ss := getTime_of (sunset day) in
      let ht := hdt in
      if ms_gt ht (ms_add ss twilight) || ms_lt ht (ms_sub sr twilight)
      then mkDaylight false 1.0
      else if (ms_ge ht ss && ms_le ht (ms_add ss twilight))
              || (ms_ge ht (ms_sub sr twilight) && ms_le ht sr)
      then mkDaylight false 0.3
      else if (ms_ge ht sr && ms_le ht (ms_add sr twilight))
              || (ms_ge ht (ms_sub ss twilight) && ms_le ht ss)
      then mkDaylight true 0.3
      else mkDaylight true 0.05
  end.

Definition computeDaylight (hourISO : string) (dailyList : list DayRow) : Daylight :=
  let hdt := Date_getTime hourISO in
  let dateStr := slice0 10 hourISO in
  match find_day dateStr dailyList with
  | None => mkDaylight true 1.0
  | Some day =>
      let sr := getTime_of (sunrise day) in
      let ss := getTime_of (sunset day) in
      let ht := hdt in
      if ms_ge ht sr && ms_le ht ss then
        if ms_lt (ms_sub ht sr) twilight || ms_lt (ms_sub ss ht) twilight
        then mkDaylight true 0.6
        else mkDaylight true 1.0
      else if ms_lt ht sr && ms_le (ms_sub sr ht) twilight then mkDaylight false 0.6
      else if ms_gt ht ss && ms_le (ms_sub ht ss) twilight then mkDaylight false 0.6
      else mkDaylight false 0.3
  end.

(** ** Forecast series *)

Record Hourly : Type := mkHourly {
  h_time : list string;
  temperature_2m : list Q;
  relative_humidity_2m : list Q;
  apparent_temperature : list Q;
  h_weather_code : list Q;
  wind_speed_10m : list Q;
  h_uv_index : list Q;
  h_precipitation_probability : list Q;
  h_cloud_cover : option (list Q);     (* read through [?.] *)
  h_visibility : option (list Q)       (* read through [?.] *)
}.

Record Daily : Type := mkDaily {
  d_time : list string;
  d_sunrise : list string;
  d_sunset : list string
}.

Record OpenMeteoForecast : Type := mkForecast {
  hourly : Hourly;
  daily : Daily
}.

(** [forecast.daily.time.map((d, i) => ({ date: d, sunrise: ...[i], sunset: ...[i] }))] *)
Fixpoint daily_rows (i : nat) (ds : list string) (dly : Daily) : list DayRow :=
  match ds with
  | [] => []
  | d :: ds' =>
      mkDayRow d (nth_error (d_sunrise dly) i) (nth_error (d_sunset dly) i)
      :: daily_rows (S i) ds' dly
  end.

Definition dailyList_of (forecast : OpenMeteoForecast) : list DayRow :=
  daily_rows 0 (d_time (daily forecast)) (daily forecast).

(** [arr?.[i] ?? d] *)
Definition opt_index (arr : option (list Q)) (i : nat) (d : Q) : Q :=
  match arr with
  | Some l => nullish (nth_error l i) d
  | None => d
  end.

(** The [hourData] literal both lookups build for the slot [i] at time [t]. *)
Definition hourData_at (h : Hourly) (i : nat) (t : string) (dl : Daylight) : HourlyData :=
  {| time := t;
     temperature := nth_error (temperature_2m h) i;
     humidity := nth_error (relative_humidity_2m h) i;
     feels_like := nth_error (apparent_temperature h) i;
     weather_code := nth_error (h_weather_code h) i;
     wind_speed := nth_error (wind_speed_10m h) i;
     uv_index := nth_error (h_uv_index h) i;
     precipitation_probability := nth_error (h_precipitation_probability h) i;
     cloud_cover := Some (opt_index (h_cloud_cover h) i 50);
     visibility := Some (opt_index (h_visibility h) i 20000);
     is_daylight := dl_is_daylight dl;
     daylight_factor := dl_daylight_factor dl |}.

Definition light_for (mode : Mode) (t : string) (dailyList : list DayRow) : Daylight :=
  if Mode_eqb mode stargazing
  then computeDarkness t dailyList
  else computeDaylight t dailyList.

(** ** Forecast hour resolver *)

(** First loop of [computeScoreForHour]: the first index whose time starts
    with [targetHour]. *)
Fixpoint exact_slot (targetHour : string) (i : nat) (ts : list string) : option nat :=
  match ts with
  | [] => None
  | t :: ts' =>
      if String.eqb (slice0 13 t) targetHour then Some i
      else exact_slot targetHour (S i) ts'
  end.

(** Second loop: [minDiff] starts at [Infinity] ([None] here), [idx] at
    [-1] ([None]); a [NaN] difference never wins. *)
Fixpoint closest_slot (target : Z) (i : nat) (ts : list string)
         (minDiff : option Z) (idx : option nat) : option nat :=
  match ts with
  | [] => idx
  | t :: ts' =>
      match ms_abs (ms_sub (Date_getTime t) (Some target)) with
      | Some diff =>
          let smaller := match minDiff with
                         | None => true
                         | Some m => (diff <? m)%Z
                         end in
          if smaller then closest_slot target (S i) ts' (Some diff) (Some i)
          else closest_slot target (S i) ts' minDiff idx
      | None => closest_slot target (S i) ts' minDiff idx
      end
  end.

Definition computeScoreForHour (forecast : OpenMeteoForecast) (targetTime : string)
           (mode : Mode) : result Q :=
  match Date_getTime targetTime with
  | None => Throw RangeError               (* toISOString of an invalid Date *)
  | Some target =>
      let targetHour := slice0 13 (Date_toISOString target) in
      let dailyList := dailyList_of forecast in
      let times := h_time (hourly forecast) in
      let idx := match exact_slot targetHour 0 times with
                 | Some i => Some i
                 | None => closest_slot target 0 times None None
                 end in
      match idx with
      | None => Ok 50                       (* no data, neutral score *)
      | Some idx =>
          let h := hourly forecast in
          match nth_error (h_time h) idx with
          | None => Throw TypeError
          | Some t =>
              let dl := light_for mode t dailyList in
              s <- computeScore (hourData_at h idx t dl) mode ;;
              Ok (score s)
          end
      end
  end.

(** ** Alternative-slot search *)

Record Slot : Type := mkSlot {
  slot_time : string;
  slot_score : Q
}.

Definition windowMs : msnum := Some (4 * 60 * 60 * 1000)%Z.

(** [a > b] on scores *)
Definition Qgt_bool (a b : Q) : bool := negb (Qle_bool a b).

(** The loop of [findBestAlternative] from index [i] on, [ts] being the
    times not yet visited. *)
Fixpoint alternative_loop (forecast : OpenMeteoForecast) (targetDate : msnum)
         (now : Z) (dayStr : string) (dailyList : list DayRow) (mode : Mode)
         (i : nat) (ts : list string) (best : option Slot) : result (option Slot) :=
  match ts with
  | [] => Ok best
  | t :: ts' =>
      let continue := alternative_loop forecast targetDate now dayStr dailyList mode (S i) ts' in
      if negb (String.eqb (slice0 10 t) dayStr) then continue best else
      let tMs := Date_getTime t in
      if ms_le tMs (Some now) then continue best else
      if ms_gt (ms_abs (ms_sub tMs targetDate)) windowMs then continue best else
      if ms_eq tMs targetDate then continue best else
      let h := hourly forecast in
      let dl := light_for mode t dailyList in
      if negb (Mode_eqb mode stargazing) && negb (dl_is_daylight dl) then continue best else
      if Mode_eqb mode stargazing && dl_is_daylight dl then continue best else
      s <- computeScore (hourData_at h i t dl) mode ;;
      continue (match best with
                | None => Some (mkSlot t (score s))
                | Some b => if Qgt_bool (score s) (slot_score b)
                            then Some (mkSlot t (score s)) else best
                end)
  end.

(** [now] is the value [Date.now()] returns inside the call. *)
Definition findBestAlternative (forecast : OpenMeteoForecast) (targetTime : string)
           (mode : Mode) (now : Z) : result (option Slot) :=
  let targetDate := Date_getTime targetTime in
  let dayStr := slice0 10 targetTime in
  let dailyList := dailyList_of forecast in
  alternative_loop forecast targetDate now dayStr dailyList mode
                   0 (h_time (hourly forecast)) None.

(** The same loop and the same function with the call of the Mode Scorer
    as a parameter: [findBestAlternative] is
    [findBestAlternative_with computeScore].  What the search does with the
    scores does not depend on how they are computed. *)
Fixpoint alternative_loop_with (scorer : HourlyData -> Mode -> result ScoredHour)
         (forecast : OpenMeteoForecast) (targetDate : msnum)
         (now : Z) (dayStr : string) (dailyList : list DayRow) (mode : Mode)
         (i : nat) (ts : list string) (best : option Slot) : result (option Slot) :=
  match ts with
  | [] => Ok best
  | t :: ts' =>
      let continue :=
        alternative_loop_with scorer forecast targetDate now dayStr dailyList mode (S i) ts' in
      if negb (String.eqb (slice0 10 t) dayStr) then continue best else
      let tMs := Date_getTime t in
      if ms_le tMs (Some now) then continue best else
      if ms_gt (ms_abs (ms_sub tMs targetDate)) windowMs then continue best else
      if ms_eq tMs targetDate then continue best else
      let h := hourly forecast in
      let dl := light_for mode t dailyList in
      if negb (Mode_eqb mode stargazing) && negb (dl_is_daylight dl) then continue best else
      if Mode_eqb mode stargazing && dl_is_daylight dl then continue best else
      s <- scorer (hourData_at h i t dl) mode ;;
      continue (match best with
                | None => Some (mkSlot t (score s))
                | Some b => if Qgt_bool (score s) (slot_score b)
                            then Some (mkSlot t (score s)) else best
                end)
  end.


(** ** Monitoring state machine: the durable object [ScheduledRun] *)

(** A row of the SQL table [event]. *)
Record EventRow : Type := mkEventRow {
  id : string;
  email : string;
  mode : Mode;
  scheduled_time : string;
  duration_minutes : Q;
  lat : Q;
  lon : Q;
  tz : string;
  location_name : string;
  initial_score : Q;
  alert_sent : Z;            (* 0 or 1 *)
  resend_api_key : string
}.

(** The durable storage of one object: the rows of [event] in rowid order
    and the pending alarm. *)
Record Storage : Type := mkStorage {
  event : list EventRow;
  pending_alarm : option Z
}.

(** The JSON body of [POST /initialize]. *)
Record InitBody : Type := mkInitBody {
  b_id : string;
  b_email : string;
  b_mode : Mode;
  b_scheduledTime : string;
  b_durationMinutes : Q;
  b_lat : Q;
  b_lon : Q;
  b_tz : string;
  b_locationName : string;
  b_initialScore : Q;
  b_resendApiKey : string
}.

Record DeteriorationData : Type := mkDeteriorationData {
  dd_email : string;
  dd_mode : Mode;
  dd_scheduledTime : string;
  dd_durationMinutes : Q;
  dd_locationName : string;
  dd_initialScore : Q;
  dd_currentScore : Q;
  dd_alternative : option Slot
}.

(** What a run of a handler does to the outside: a call of
    [sendDeteriorationEmail] with its outcome, or a [console.error]. *)
Inductive Effect : Type :=
| Email (data : DeteriorationData) (apiKey : string) (delivered : bool)
| ConsoleError (e : exn).

(** What the outside answers during one run of [alarm]. *)
Record World : Type := mkWorld {
  w_now : Z;                                   (* Date.now() in [alarm] *)
  w_now_search : Z;                            (* Date.now() in [findBestAlternative] *)
  w_fetchForecast : result OpenMeteoForecast;  (* fetchForecast(lat, lon, tz, 2) *)
  w_send : DeteriorationData -> string -> result unit
}.

(** [SELECT * FROM event LIMIT 1] *)
Definition getEvent (st : Storage) : option EventRow :=
  match event st with
  | [] => None
  | row :: _ => Some row
  end.

(** [INSERT OR REPLACE INTO event ...]: [id] is the primary key, so a row
    with the same [id] is deleted and the new row is appended. *)
Definition insert_or_replace (row : EventRow) (rows : list EventRow) : list EventRow :=
  filter (fun r => negb (String.eqb (id r) (id row))) rows ++ [row].

Definition row_of_body (body : InitBody) : EventRow :=
  {| id := b_id body;
     email := b_email body;
     mode := b_mode body;
     scheduled_time := b_scheduledTime body;
     duration_minutes := b_durationMinutes body;
     lat := b_lat body;
     lon := b_lon body;
     tz := b_tz body;
     location_name := b_locationName body;
     initial_score := b_initialScore body;
     alert_sent := 0;
     resend_api_key := b_resendApiKey body |}.

(** [handleInitialize]; [now] is the value of both [Date.now()] calls.
    [setAlarm] rejects a [NaN] time, after the row has been written. *)
Definition handleInitialize (st : Storage) (body : InitBody) (now : Z)
  : Storage * result unit :=
  let rows := insert_or_replace (row_of_body body) (event st) in
  let eventTime := Date_getTime (b_scheduledTime body) in
  let oneHourFromNow := Some (now + 60 * 60 * 1000)%Z in
  let twoHoursBefore := ms_sub eventTime (Some (2 * 60 * 60 * 1000)%Z) in
  let firstAlarm := ms_min oneHourFromNow (ms_max twoHoursBefore (Some (now + 60 * 1000)%Z)) in
  match firstAlarm with
  | Some at_ => (mkStorage rows (Some at_), Ok tt)
  | None => (mkStorage rows (pending_alarm st), Throw TypeError)
  end.

(** [UPDATE event SET alert_sent = 1] *)
Definition set_alert_sent (rows : list EventRow) : list EventRow :=
  map (fun r =>
         {| id := id r; email := email r; mode := mode r;
            scheduled_time := scheduled_time r;
            duration_minutes := duration_minutes r;
            lat := lat r; lon := lon r; tz := tz r;
            location_name := location_name r;
            initial_score := initial_score r;
            alert_sent := 1;
            resend_api_key := resend_api_key r |}) rows.

(** A non-empty string is truthy. *)
Definition truthy (s : string) : bool :=
  match s with
  | EmptyString => false
  | String _ _ => true
  end.

(** The body of the [try] block of [alarm]: the rows it leaves and the
    effects it has; a throw anywhere inside ends in [console.error]. *)
Definition alarm_check (rows : list EventRow) (ev : EventRow) (w : World)
  : list EventRow * list Effect :=
  match w_fetchForecast w with
  | Throw e => (rows, [ConsoleError e])
  | Ok forecast =>
      match computeScoreForHour forecast (scheduled_time ev) (mode ev) with
      | Throw e => (rows, [ConsoleError e])
      | Ok currentScore =>
          let scoreDrop := initial_score ev - currentScore in
          if Qle_bool 15 scoreDrop && (alert_sent ev =? 0)%Z && truthy (resend_api_key ev)
          then
            match findBestAlternative forecast (scheduled_time ev) (mode ev) (w_now_search w) with
            | Throw e => (rows, [ConsoleError e])
            | Ok alternative =>
                let data :=
                  {| dd_email := email ev;
                     dd_mode := mode ev;
                     dd_scheduledTime := scheduled_time ev;
                     dd_durationMinutes := duration_minutes ev;
                     dd_locationName := location_name ev;
                     dd_initialScore := initial_score ev;
                     dd_currentScore := currentScore;
                     dd_alternative := alternative |} in
                match w_send w data (resend_api_key ev) with
                | Throw e =>
                    (rows, [Email data (resend_api_key ev) false; ConsoleError e])
                | Ok _ =>
                    (set_alert_sent rows, [Email data (resend_api_key ev) true])
                end
            end
          else (rows, [])
      end
  end.

(** [alarm]: the storage it leaves and its effects. *)
Definition alarm (st : Storage) (w : World) : Storage * list Effect :=
  match getEvent st with
  | None => (st, [])
  | Some ev =>
      let eventTime := Date_getTime (scheduled_time ev) in
      let now := w_now w in
      if ms_gt (Some now) eventTime then
        (* DELETE FROM event; deleteAll() *)
        (mkStorage [] None, [])
      else
        let '(rows, effects) := alarm_check (event st) ev w in
        let nextAlarm := (now + 30 * 60 * 1000)%Z in
        if ms_lt (Some nextAlarm) eventTime
        then (mkStorage rows (Some nextAlarm), effects)
        else (mkStorage rows (pending_alarm st), effects)
  end.

(** A timer wake: the runtime clears the alarm that fires, then runs
    [alarm]. *)
Definition wake (st : Storage) (w : World) : Storage * list Effect :=
  alarm (mkStorage (event st) None) w.

(** Successive wakes, with all their effects in order. *)
Fixpoint wakes (st : Storage) (ws : list World) : Storage * list Effect :=
  match ws with
  | [] => (st, [])
  | w :: ws' =>
      let '(st1, e1) := wake st w in
      let '(st2, e2) := wakes st1 ws' in
      (st2, e1 ++ e2)
  end.

Definition is_email (e : Effect) : bool :=
  match e with Email _ _ _ => true | ConsoleError _ => false end.

Definition is_delivered (e : Effect) : bool :=
  match e with Email _ _ d => d | ConsoleError _ => false end.

(** The alert flag of the persisted record. *)
Definition alert_flag (st : Storage) : option Z := option_map alert_sent (getEvent st).

(** ** Notification mail ([src/lib/email.ts]) *)

(** [ratingLabel(score)] *)
Definition ratingLabel (score : Q) : string :=
  if Qle_bool 80 score then "Excellent"
  else if Qle_bool 65 score then "Good"
  else if Qle_bool 45 score then "Fair"
  else "Poor".

(** The string literal a [Rating] stands for. *)
Definition rating_string (r : Rating) : string :=
  match r with
  | Excellent => "Excellent"
  | Good => "Good"
  | Fair => "Fair"
  | Poor => "Poor"
  end.

(** ** Status query and request routing of [ScheduledRun] *)

(** The object [handleStatus] answers with. *)
Record StatusJson : Type := mkStatusJson {
  s_id : string;
  s_email : string;
  s_mode : Mode;
  s_scheduledTime : string;
  s_durationMinutes : Q;
  s_lat : Q;
  s_lon : Q;
  s_tz : string;
  s_locationName : string;
  s_initialScore : Q;
  s_alertSent : bool
}.

(** The responses of the durable object. *)
Inductive Response : Type :=
| InitializedJson                        (* 200, { ok: true } *)
| StatusResponse (j : StatusJson)        (* 200, the status object *)
| TextResponse (status : Z) (text : string).

(** [resp.ok] *)
Definition response_ok (r : Response) : bool :=
  match r with
  | TextResponse status _ => (200 <=? status)%Z && (status <=? 299)%Z
  | _ => true
  end.

Definition handleStatus (st : Storage) : Response :=
  match getEvent st with
  | None => TextResponse 404 "No event"
  | Some ev =>
      StatusResponse
        {| s_id := id ev;
           s_email := email ev;
           s_mode := mode ev;
           s_scheduledTime := scheduled_time ev;
           s_durationMinutes := duration_minutes ev;
           s_lat := lat ev;
           s_lon := lon ev;
           s_tz := tz ev;
           s_locationName := location_name ev;
           s_initialScore := initial_score ev;
           s_alertSent := (alert_sent ev =? 1)%Z |}
  end.

(** A request to the object: the path of its URL, its method, and its body
    when it parses as the JSON of [initialize]. *)
Record Request : Type := mkRequest {
  pathname : string;
  method : string;
  json : option InitBody
}.

(** What a handler throws: one of the exceptions above, the
    [SyntaxError] of [request.json()], or the error of an SQL statement
    that breaks a constraint of the table. *)
Inductive thrown : Type :=
| Exn (e : exn)
| SyntaxError
| SqlError.

Inductive Outcome : Type :=
| Responds (r : Response)
| Rejects (t : thrown).

(** [ScheduledRun.fetch]; [now] is the clock of [handleInitialize]. *)
Definition ScheduledRun_fetch (st : Storage) (request : Request) (now : Z)
  : Storage * Outcome :=
  if String.eqb (pathname request) "/initialize" && String.eqb (method request) "POST" then
    match json request with
    | None => (st, Rejects SyntaxError)
    | Some body =>
        let '(st', r) := handleInitialize st body now in
        (st', match r with
              | Ok _ => Responds InitializedJson
              | Throw e => Rejects (Exn e)
              end)
    end
  else if String.eqb (pathname request) "/status" && String.eqb (method request) "GET" then
    (st, Responds (handleStatus st))
  else (st, Responds (TextResponse 404 "Not found")).

(** ** The worker ([src/index.ts]) *)

(** The JSON body of [POST /api/schedule].  The handler checks five of
    its fields; the other three can be absent ([None], [undefined] in the
    handler).  An absent string of the five is the empty string here, an
    absent number is 0: the check takes them for missing all the same. *)
Record ScheduleBody : Type := mkScheduleBody {
  sb_email : string;
  sb_mode : option Mode;
  sb_scheduledTime : string;
  sb_durationMinutes : option Q;
  sb_lat : Q;
  sb_lon : Q;
  sb_tz : string;
  sb_locationName : option string
}.

(** The durable objects of the namespace [SCHEDULED_RUN], by name; an
    object never addressed before has an empty storage. *)
Definition Namespace : Type := string -> Storage.

Definition no_objects : Namespace := fun _ => mkStorage [] None.

Definition put_object (ns : Namespace) (name : string) (st : Storage) : Namespace :=
  fun n => if String.eqb n name then st else ns n.

Record Env : Type := mkEnv {
  SCHEDULED_RUN : Namespace;
  RESEND_API_KEY : option string
}.

(** What the outside answers during one run of [handleSchedule]. *)
Record ScheduleWorld : Type := mkScheduleWorld {
  sw_fetchForecast : result OpenMeteoForecast;   (* fetchForecast(lat, lon, tz, 2) *)
  sw_randomUUID : string;                        (* crypto.randomUUID() *)
  sw_now : Z                                     (* Date.now() in the object *)
}.

(** The responses of the worker's schedule and status routes. *)
Inductive WorkerResponse : Type :=
| ScheduledJson (id : string) (initialScore : Q)   (* 200, { id, initialScore } *)
| Relayed (r : Response)                           (* 200, the object's JSON *)
| MissingFields                                    (* 400, 'Missing required fields' *)
| EventNotFound                                    (* 404, 'Event not found' *)
| Failed (t : thrown).                             (* 500, { error: e.message } *)

(** [!x] on a number of the body: zero is falsy. *)
Definition falsy_number (x : Q) : bool := Qeq_bool x 0.

(** [k || ''] *)
Definition or_empty (k : option string) : string :=
  match k with
  | Some s => s
  | None => EmptyString
  end.

(** The mode the scorer sees.  An absent [mode] is none of the literals it
    is compared with: [computeScoreForHour] takes [computeDaylight] and
    [computeScore] its last branch with the curves of walking. *)
Definition scored_as (m : option Mode) : Mode := nullish m walking.

(** [JSON.stringify] leaves an absent field out of the body sent to the
    object, whose [INSERT] then has no value for a [NOT NULL] column: the
    statement fails, the object's [fetch] rejects and its storage is as it
    was. *)
Definition handleSchedule (env : Env) (body : ScheduleBody) (w : ScheduleWorld)
  : Namespace * WorkerResponse :=
  let ns := SCHEDULED_RUN env in
  if negb (truthy (sb_email body)) || negb (truthy (sb_scheduledTime body))
     || falsy_number (sb_lat body) || falsy_number (sb_lon body)
     || negb (truthy (sb_tz body))
  then (ns, MissingFields)
  else
    match sw_fetchForecast w with
    | Throw e => (ns, Failed (Exn e))
    | Ok forecast =>
        match computeScoreForHour forecast (sb_scheduledTime body)
                                  (scored_as (sb_mode body)) with
        | Throw e => (ns, Failed (Exn e))
        | Ok initialScore =>
            let id := sw_randomUUID w in
            match sb_mode body, sb_durationMinutes body, sb_locationName body with
            | Some mode, Some durationMinutes, Some locationName =>
                let request :=
                  mkRequest "/initialize" "POST"
                    (Some {| b_id := id;
                             b_email := sb_email body;
                             b_mode := mode;
                             b_scheduledTime := sb_scheduledTime body;
                             b_durationMinutes := durationMinutes;
                             b_lat := sb_lat body;
                             b_lon := sb_lon body;
                             b_tz := sb_tz body;
                             b_locationName := locationName;
                             b_initialScore := initialScore;
                             b_resendApiKey := or_empty (RESEND_API_KEY env) |}) in
                let '(st', outcome) := ScheduledRun_fetch (ns id) request (sw_now w) in
                (put_object ns id st',
                 match outcome with
                 | Rejects t => Failed t
                 | Responds _ => ScheduledJson id initialScore
                 end)
            | _, _, _ => (ns, Failed SqlError)
            end
        end
    end.

(** [handleGetStatus]; a status request does not read the clock. *)
Definition handleGetStatus (id : string) (env : Env) : WorkerResponse :=
  match ScheduledRun_fetch (SCHEDULED_RUN env id) (mkRequest "/status" "GET" None) 0 with
  | (_, Rejects t) => Failed t
  | (_, Responds resp) => if response_ok resp then Relayed resp else EventNotFound
  end.

(** ** Vocabulary of the properties *)

(** The breakpoints come in strictly ascending order of input. *)
Definition ascending (bp : list (Q * Q)) : Prop :=
  StronglySorted (fun a b => fst a < fst b) bp.

(** The breakpoints are sorted by ascending input, equal inputs allowed. *)
Definition sorted_by_input (bp : list (Q * Q)) : Prop :=
  StronglySorted (fun a b => fst a <= fst b) bp.

Definition in_range (y : Q) : Prop := 0 <= y <= 100.

(** A curve: a score function that always returns, within the range. *)
Definition is_curve (f : num -> result Q) : Prop :=
  forall v, exists y, f v = Ok y /\ in_range y.

Create HintDb curves.

(** Weather-code scores: every entry of a table is within the range, and
    so is the default. *)
Definition table_in_range (tbl : list (Q * Q)) : bool :=
  forallb (fun kv => Qle_bool 0 (snd kv) && Qle_bool (snd kv) 100) tbl.

(** The sub-scores are within the range, and so is their weighted sum. *)
Definition sub_ok (sub W : list (string * Q)) : Prop :=
  Forall (fun kv => in_range (snd kv)) sub /\ in_range (weighted_sum sub W).

(** Rounding to one decimal place: [Math.round(x * 10) / 10]. *)
Definition round_tenth (x : Q) : Q := Math_round (x * 10) / 10.

(** The weighted sum in the words of the specification: every sub-score
    times the weight of its factor, added up; the sub-scores are read in
    the order of the weight table. *)
Definition weighted_total (sub W : list (string * Q)) : Q :=
  fold_right (fun p acc => snd (fst p) * snd (snd p) + acc) 0 (combine sub W).

(** The scorer adds and multiplies doubles, and the weights are no binary
    fractions: the product it rounds can differ from the exact one in the
    last binary places, and [Math.round] can then take the other tenth at a
    tie of the exact product, or next to one.  A billionth is far above
    that difference for sub-scores up to 100. *)
Definition rounding_slack : Q := 1 # 1000000000.

(** The day of [hourISO] is in the table, and the hour, the sunrise and
    the sunset are valid times [ht], [sr] and [ss]. *)
Definition day_known (hourISO : string) (dailyList : list DayRow) (ht sr ss : Z) : Prop :=
  exists day,
    find_day (slice0 10 hourISO) dailyList = Some day /\
    getTime_of (sunrise day) = Some sr /\
    getTime_of (sunset day) = Some ss /\
    Date_getTime hourISO = Some ht.

(** The tests of the loop of [findBestAlternative], taken together: the
    slot at time [t] is not skipped. *)
Definition passes (forecast : OpenMeteoForecast) (targetTime : string) (mode : Mode)
           (now : Z) (t : string) : bool :=
  let targetDate := Date_getTime targetTime in
  let tMs := Date_getTime t in
  let dl := light_for mode t (dailyList_of forecast) in
  String.eqb (slice0 10 t) (slice0 10 targetTime)
  && negb (ms_le tMs (Some now))
  && negb (ms_gt (ms_abs (ms_sub tMs targetDate)) windowMs)
  && negb (ms_eq tMs targetDate)
  && negb (negb (Mode_eqb mode stargazing) && negb (dl_is_daylight dl))
  && negb (Mode_eqb mode stargazing && dl_is_daylight dl).


(** The composite score of the slot [i] at time [t] under [mode]
    ([computeScore] never throws, see [computeScore_total]). *)
Definition score_at (forecast : OpenMeteoForecast) (mode : Mode) (i : nat) (t : string) : Q :=
  match computeScore (hourData_at (hourly forecast) i t
                                  (light_for mode t (dailyList_of forecast))) mode with
  | Ok s => score s
  | Throw _ => 0
  end.

(** [b] is the best of the candidate slots of index below [n]: none when
    there is no candidate, otherwise a candidate whose score no candidate
    below [n] exceeds and no earlier candidate reaches. *)
Definition best_upto (cand : nat -> string -> Prop) (sc : nat -> string -> Q)
           (n : nat) (b : option Slot) : Prop :=
  match b with
  | None => forall j u, (j < n)%nat -> ~ cand j u
  | Some slot =>
      exists i t, (i < n)%nat /\ cand i t /\ slot = mkSlot t (sc i t) /\
                  (forall j u, (j < n)%nat -> cand j u -> sc j u <= sc i t) /\
                  (forall j u, (j < i)%nat -> cand j u -> sc j u < sc i t)
  end.

(** The assignment to [best] at the end of the loop body. *)
Definition better (best : option Slot) (t : string) (sc : Q) : option Slot :=
  match best with
  | None => Some (mkSlot t sc)
  | Some b => if Qgt_bool sc (slot_score b) then Some (mkSlot t sc) else best
  end.

(** The calls of [sendDeteriorationEmail] among the effects, and those of
    them that went through. *)
Definition emails (es : list Effect) : list Effect := filter is_email es.
Definition deliveries (es : list Effect) : list Effect := filter is_delivered es.

(** No record, or a record whose alert flag is no longer 0. *)
Definition alerted (st : Storage) : Prop :=
  match getEvent st with
  | Some ev => alert_sent ev <> 0%Z
  | None => True
  end.


(** The composite score that [scorer] gives the slot [i] at time [t]
    under [mode]. *)
Definition score_by (scorer : HourlyData -> Mode -> result ScoredHour)
           (forecast : OpenMeteoForecast) (mode : Mode) (i : nat) (t : string) : Q :=
  match scorer (hourData_at (hourly forecast) i t
                            (light_for mode t (dailyList_of forecast))) mode with
  | Ok s => score s
  | Throw _ => 0
  end.


(** The value of the segment from [(x0, y0)] to [(x1, y1)] at [v]. *)
Definition on_segment (x0 y0 x1 y1 v : Q) : Q :=
  y0 + (v - x0) / (x1 - x0) * (y1 - y0).

(** Every output of the table lies between [lo] and [hi]. *)
Definition outputs_within (lo hi : Q) (bp : list (Q * Q)) : Prop :=
  Forall (fun b => lo <= snd b <= hi) bp.

(** The weather codes the tables have an entry for (the four tables have
    the same keys). *)
Definition known_codes : list Q := map fst WEATHER_CODE_SCORES.

(** [c] is no key of the weather-code tables: [NaN], or a number other than
    the known codes. *)
Definition unmapped_code (c : num) : bool :=
  match c with
  | Some q => forallb (fun k => negb (Qeq_bool q k)) known_codes
  | None => true
  end.

(** The hour [h] under another daylight multiplier. *)
Definition with_daylight_factor (h : HourlyData) (f : Q) : HourlyData :=
  {| time := time h;
     temperature := temperature h;
     humidity := humidity h;
     feels_like := feels_like h;
     weather_code := weather_code h;
     wind_speed := wind_speed h;
     uv_index := uv_index h;
     precipitation_probability := precipitation_probability h;
     is_daylight := is_daylight h;
     daylight_factor := f;
     cloud_cover := cloud_cover h;
     visibility := visibility h |}.

(** The distance in milliseconds from the slot time [t] to [target], when
    [t] is a timestamp. *)
Definition distance (target : Z) (t : string) : option Z :=
  ms_abs (ms_sub (Date_getTime t) (Some target)).

(** State of the closest-hour loop after the slots below [n]: nothing yet
    when no time parsed, otherwise the first of the nearest slots. *)
Definition nearest_upto (target : Z) (ts : list string) (n : nat)
           (minDiff : option Z) (idx : option nat) : Prop :=
  match minDiff, idx with
  | None, None =>
      forall j u, (j < n)%nat -> nth_error ts j = Some u -> distance target u = None
  | Some d, Some i =>
      (i < n)%nat /\
      (exists t, nth_error ts i = Some t /\ distance target t = Some d) /\
      (forall j u dj, (j < n)%nat -> nth_error ts j = Some u -> distance target u = Some dj ->
                      (d <= dj)%Z /\ ((j < i)%nat -> (d < dj)%Z))
  | _, _ => False
  end.

(** The status object of a record just initialized from [body]. *)
Definition status_of_body (body : InitBody) : StatusJson :=
  {| s_id := b_id body;
     s_email := b_email body;
     s_mode := b_mode body;
     s_scheduledTime := b_scheduledTime body;
     s_durationMinutes := b_durationMinutes body;
     s_lat := b_lat body;
     s_lon := b_lon body;
     s_tz := b_tz body;
     s_locationName := b_locationName body;
     s_initialScore := b_initialScore body;
     s_alertSent := false |}.


(** The check of [handleSchedule] lets the body through. *)
Definition has_required_fields (body : ScheduleBody) : bool :=
  truthy (sb_email body) && truthy (sb_scheduledTime body)
  && negb (falsy_number (sb_lat body)) && negb (falsy_number (sb_lon body))
  && truthy (sb_tz body).

(** The storage of a terminated or never initialized object. *)
Definition empty_storage : Storage := mkStorage [] None.

(** The payload of the notification for the record [ev] when the score is
    [cur] and the search returned [alt]. *)
Definition notification_of (ev : EventRow) (cur : Q) (alt : option Slot) : DeteriorationData :=
  {| dd_email := email ev;
     dd_mode := mode ev;
     dd_scheduledTime := scheduled_time ev;
     dd_durationMinutes := duration_minutes ev;
     dd_locationName := location_name ev;
     dd_initialScore := initial_score ev;
     dd_currentScore := cur;
     dd_alternative := alt |}.

(** ** Sample data, after the fixtures of the test suite *)

Local Open Scope string_scope.

(** One day: sunrise 06:00, sunset 20:30. *)
Definition DAILY : list DayRow :=
  [mkDayRow "2025-06-15" (Some "2025-06-15T06:00") (Some "2025-06-15T20:30")]%string.

Definition DAILY_arrays : Daily :=
  mkDaily ["2025-06-15"] ["2025-06-15T06:00"] ["2025-06-15T20:30"]%string.

(** [makeHour()]: mid-day, mild, calm, clear. *)
Definition makeHour : HourlyData :=
  {| time := "2025-06-15T12:00";
     temperature := Some 55;
     humidity := Some 40;
     feels_like := Some 55;
     weather_code := Some 0;
     wind_speed := Some 5;
     uv_index := Some 3;
     precipitation_probability := Some 0;
     is_daylight := true;
     daylight_factor := 1.0;
     cloud_cover := Some 10;
     visibility := Some 40000 |}.

(** A forecast of baseline hours at the given times, with the given
    precipitation probabilities and weather codes. *)
Definition makeForecast (ts : list string) (precip codes : list Q) : OpenMeteoForecast :=
  {| hourly :=
       {| h_time := ts;
          temperature_2m := map (fun _ => 55) ts;
          relative_humidity_2m := map (fun _ => 40) ts;
          apparent_temperature := map (fun _ => 55) ts;
          h_weather_code := codes;
          wind_speed_10m := map (fun _ => 5) ts;
          h_uv_index := map (fun _ => 3) ts;
          h_precipitation_probability := precip;
          h_cloud_cover := Some (map (fun _ => 10) ts);
          h_visibility := Some (map (fun _ => 40000) ts) |};
     daily := DAILY_arrays |}.

(** Heavy rain at 11:00, then two clear hours. *)
Definition rain_then_clear : OpenMeteoForecast :=
  makeForecast ["2025-06-15T11:00"; "2025-06-15T12:00"; "2025-06-15T13:00"]%string
               [80; 0; 0] [65; 0; 0].

(** A clear hour at 11:00, then heavy rain. *)
Definition clear_then_rain : OpenMeteoForecast :=
  makeForecast ["2025-06-15T11:00"; "2025-06-15T12:00"]%string [0; 80] [0; 65].

Definition no_data : OpenMeteoForecast := makeForecast [] [] [].


(** 2025-06-15T10:00Z in epoch milliseconds. *)
Definition ten_o_clock : Z := 1749981600000.

(** A run scheduled for noon with initial score 90. *)
Definition sample_row (flag : Z) : EventRow :=
  {| id := "e1"; email := "runner@example.org"; mode := running;
     scheduled_time := "2025-06-15T12:00"; duration_minutes := 60;
     lat := 40; lon := -74; tz := "UTC"; location_name := "Park";
     initial_score := 90; alert_sent := flag; resend_api_key := "re_key" |}.

Definition sample_body : InitBody :=
  {| b_id := "e1"; b_email := "runner@example.org"; b_mode := running;
     b_scheduledTime := "2025-06-15T12:00"; b_durationMinutes := 60;
     b_lat := 40; b_lon := -74; b_tz := "UTC"; b_locationName := "Park";
     b_initialScore := 90; b_resendApiKey := "re_key" |}.

(** A wake at [now] at which the provider answers [fetched] and the
    notification goes through. *)
Definition world_at (now : Z) (fetched : result OpenMeteoForecast) : World :=
  {| w_now := now; w_now_search := now; w_fetchForecast := fetched;
     w_send := fun _ _ => Ok tt |}.

(** 2025-06-15T12:00Z in epoch milliseconds. *)
Definition noon : Z := 1749988800000.

(** The run before and after its alert. *)
Definition fresh_store : Storage := mkStorage [sample_row 0] None.
Definition alerted_store : Storage := mkStorage [sample_row 1] None.

(** Two wakes, at 10:00 and 10:30, that each find no data: the score is the
    neutral 50, down 40 points from the initial 90. *)
Definition two_crossings : list World :=
  [world_at ten_o_clock (Ok no_data); world_at (ten_o_clock + 1800000) (Ok no_data)].

(** Wakes at 11:50 and at 10:00 with the provider failing. *)
Definition ten_to_noon : World := world_at (noon - 600000) (Throw FetchError).
Definition at_ten : World := world_at ten_o_clock (Throw FetchError).

(** The breakpoints of [scoreUV]. *)
Definition uv_curve : list (Q * Q) :=
  [(0, 100); (2, 100); (5, 75); (7, 45); (8, 15); (11, 0)].


(** The same request without a location name. *)
Definition nameless_schedule : ScheduleBody :=
  {| sb_email := "runner@example.org"; sb_mode := Some running;
     sb_scheduledTime := "2025-06-15T12:00"; sb_durationMinutes := Some 60;
     sb_lat := 40; sb_lon := -74; sb_tz := "UTC"; sb_locationName := None |}.

Definition equator_schedule : ScheduleBody :=
  {| sb_email := "runner@example.org"; sb_mode := Some running;
     sb_scheduledTime := "2025-06-15T12:00"; sb_durationMinutes := Some 60;
     sb_lat := 0; sb_lon := -74; sb_tz := "UTC"; sb_locationName := Some "Quito" |}.

(** A request whose scheduled time is no timestamp. *)
Definition garbled_schedule : ScheduleBody :=
  {| sb_email := "runner@example.org"; sb_mode := Some running;
     sb_scheduledTime := "noon"; sb_durationMinutes := Some 60;
     sb_lat := 40; sb_lon := -74; sb_tz := "UTC"; sb_locationName := Some "Park" |}.

Definition sample_env : Env := mkEnv no_objects (Some "re_key").

(** The worker is called at 09:00, the forecast arrives, the id drawn is
    [u1]. *)
Definition schedule_world : ScheduleWorld :=
  {| sw_fetchForecast := Ok clear_then_rain; sw_randomUUID := "u1";
     sw_now := ten_o_clock - 3600000 |}.

(** The run without a notification credential. *)
Definition keyless_row : EventRow :=
  {| id := "e1"; email := "runner@example.org"; mode := running;
     scheduled_time := "2025-06-15T12:00"; duration_minutes := 60;
     lat := 40; lon := -74; tz := "UTC"; location_name := "Park";
     initial_score := 90; alert_sent := 0; resend_api_key := "" |}.

(** A wake at 13:00, after the run. *)
Definition at_one : World := world_at (noon + 3600000) (Ok no_data).

(** A wake at 10:00 whose forecast has the rain at noon. *)
Definition clear_at_ten : World := world_at ten_o_clock (Ok clear_then_rain).

(** A wake at 10:00 that finds no data while the mail provider is down. *)
Definition mail_down_at_ten : World :=
  {| w_now := ten_o_clock; w_now_search := ten_o_clock; w_fetchForecast := Ok no_data;
     w_send := fun _ _ => Throw SendError |}.

(** 2025-06-15T14:00Z, after the slots of the sample forecasts. *)
Definition two_o_clock : Z := noon + 7200000.

(** A forecast whose only time is not a timestamp. *)
Definition garbled_forecast : OpenMeteoForecast := makeForecast ["soon"] [0] [0].

Local Close Scope string_scope.

(** * Properties *)

(** ** Curve interpolator *)

Lemma last_in_tail (A : Type) (d e : A) (l : list A) :
  In (last (e :: l) d) (e :: l).
Proof.
  revert e; induction l as [|a l IH]; intro e.
  - left; reflexivity.
  - right. change (last (e :: a :: l) d) with (last (a :: l) d). apply IH.
Qed.

Lemma ascending_first_le_last (b : Q * Q) (rest : list (Q * Q)) :
  ascending (b :: rest) -> fst b <= fst (last (b :: rest) b).
Proof.
  intro H. apply StronglySorted_inv in H as [_ H].
  destruct rest as [|c rest]; [apply Qle_refl|].
  change (last (b :: c :: rest) b) with (last (c :: rest) b).
  rewrite Forall_forall in H.
  apply Qlt_le_weak, H, last_in_tail.
Qed.

Lemma ascending_first_lt_last (b c : Q * Q) (rest : list (Q * Q)) :
  ascending (b :: c :: rest) -> fst b < fst (last (b :: c :: rest) b).
Proof.
  intro H. apply StronglySorted_inv in H as [_ H].
  change (last (b :: c :: rest) b) with (last (c :: rest) b).
  rewrite Forall_forall in H. apply H, last_in_tail.
Qed.

Lemma interpolate_nonempty (v : num) (b : Q * Q) (bs : list (Q * Q)) :
  exists y, interpolate v (b :: bs) = Ok y.
Proof.
  unfold interpolate. destruct b as [x0 y0].
  destruct (last ((x0, y0) :: bs) (x0, y0)) as [xn yn].
  eexists; reflexivity.
Qed.

(** C5, as the code has it.  On a non-empty breakpoint table, sorted or
    not, [interpolate] clamps: a query at or below the first input returns
    the first output, and a query at or above the last input returns the
    last output when it is above the first input.  The test against the
    first input comes first: a query that is both at the first and at the
    last input (a table whose inputs all equal the query) takes the first
    output. *)
Theorem interpolate_clamps (x0 y0 : Q) (rest : list (Q * Q)) (lo hi : Q)
  (Hlo : lo <= x0)
  (Hhi : fst (last ((x0, y0) :: rest) (x0, y0)) <= hi)
  (Habove : x0 < hi) :
  interpolate (Some lo) ((x0, y0) :: rest) = Ok y0 /\
  interpolate (Some hi) ((x0, y0) :: rest) = Ok (snd (last ((x0, y0) :: rest) (x0, y0))).
Proof.
  unfold interpolate.
  destruct (last ((x0, y0) :: rest) (x0, y0)) as [xn yn].
  cbn [fst snd] in *. unfold num_le, num_ge. split.
  - apply Qle_bool_iff in Hlo. rewrite Hlo. reflexivity.
  - destruct (Qle_bool hi x0) eqn:E.
    + apply Qle_bool_iff in E. exfalso. lra.
    + apply Qle_bool_iff in Hhi. rewrite Hhi. reflexivity.
Qed.

(** ** Mode scorer *)

Lemma clamp_in_range (v : Q) : in_range (clamp v).
Proof.
  unfold in_range, clamp, clamp_between. split.
  - apply Q.le_max_l.
  - apply Q.max_lub; [lra | apply Q.le_min_l].
Qed.

Lemma clamped_table_is_curve (b : Q * Q) (bs : list (Q * Q)) :
  is_curve (fun v => clamp <$> interpolate v (b :: bs)).
Proof.
  intro v. destruct (interpolate_nonempty v b bs) as [y E].
  exists (clamp y). rewrite E. split; [reflexivity | apply clamp_in_range].
Qed.

Lemma scoreTempRunning_curve : is_curve scoreTempRunning.
Proof. apply clamped_table_is_curve. Qed.
Lemma scoreTempWalking_curve : is_curve scoreTempWalking.
Proof. apply clamped_table_is_curve. Qed.
Lemma scoreHumidity_curve : is_curve scoreHumidity.
Proof. apply clamped_table_is_curve. Qed.
Lemma scoreUV_curve : is_curve scoreUV.
Proof. apply clamped_table_is_curve. Qed.
Lemma scoreWindRunning_curve : is_curve scoreWindRunning.
Proof. apply clamped_table_is_curve. Qed.
Lemma scoreWindWalking_curve : is_curve scoreWindWalking.
Proof. apply clamped_table_is_curve. Qed.
Lemma scoreTempCycling_curve : is_curve scoreTempCycling.
Proof. apply clamped_table_is_curve. Qed.
Lemma scoreWindCycling_curve : is_curve scoreWindCycling.
Proof. apply clamped_table_is_curve. Qed.
Lemma scorePrecip_curve : is_curve scorePrecip.
Proof. apply clamped_table_is_curve. Qed.
Lemma scorePrecipCycling_curve : is_curve scorePrecipCycling.
Proof. apply clamped_table_is_curve. Qed.
Lemma scoreTempStargazing_curve : is_curve scoreTempStargazing.
Proof. apply clamped_table_is_curve. Qed.
Lemma scoreWindStargazing_curve : is_curve scoreWindStargazing.
Proof. apply clamped_table_is_curve. Qed.
Lemma scoreHumidityStargazing_curve : is_curve scoreHumidityStargazing.
Proof. apply clamped_table_is_curve. Qed.
Lemma scoreCloudCover_curve : is_curve scoreCloudCover.
Proof. apply clamped_table_is_curve. Qed.
Lemma scoreVisibility_curve : is_curve scoreVisibility.
Proof. apply clamped_table_is_curve. Qed.
Lemma scoreTempDogWalking_curve : is_curve scoreTempDogWalking.
Proof. apply clamped_table_is_curve. Qed.
Lemma scoreUVDogWalking_curve : is_curve scoreUVDogWalking.
Proof. apply clamped_table_is_curve. Qed.
Lemma scorePavement_curve : is_curve scorePavement.
Proof. apply clamped_table_is_curve. Qed.

Lemma record_get_in_range (tbl : list (Q * Q)) (c : num) :
  table_in_range tbl = true -> in_range (nullish (record_get tbl c) 50).
Proof.
  intro H. destruct c as [q|]; simpl; [|unfold in_range; lra].
  induction tbl as [|[k v] tl IH]; simpl in *; [unfold in_range; lra|].
  apply andb_true_iff in H as [Hv Htl].
  destruct (Qeq_bool q k).
  - apply andb_true_iff in Hv as [H0 H1].
    apply Qle_bool_iff in H0, H1. split; assumption.
  - apply IH, Htl.
Qed.

Lemma scoreWeatherCode_in_range c : in_range (scoreWeatherCode c).
Proof. apply record_get_in_range. reflexivity. Qed.
Lemma scoreWeatherCodeCycling_in_range c : in_range (scoreWeatherCodeCycling c).
Proof. apply record_get_in_range. reflexivity. Qed.
Lemma scoreWeatherCodeStargazing_in_range c : in_range (scoreWeatherCodeStargazing c).
Proof. apply record_get_in_range. reflexivity. Qed.
Lemma scoreWeatherCodeDogWalking_in_range c : in_range (scoreWeatherCodeDogWalking c).
Proof. apply record_get_in_range. reflexivity. Qed.

Hint Resolve scoreWeatherCode_in_range scoreWeatherCodeCycling_in_range
     scoreWeatherCodeStargazing_in_range scoreWeatherCodeDogWalking_in_range : curves.

(** Runs one score function of a [sub] record: names its value and keeps
    the fact that it is within the range. *)
Ltac run_curve lem :=
  match goal with
  | |- context [bind (?f ?v) _] =>
      let y := fresh "s" in
      let E := fresh "E" in
      let R := fresh "R" in
      destruct (lem v) as (y & E & R); rewrite E; cbn [bind]
  end.

Ltac sub_ok_tac :=
  eexists; split; [reflexivity|]; split;
  [ repeat (constructor; [simpl; auto with curves|]); constructor
  | unfold weighted_sum, prop, in_range in *; cbn; lra ].

Lemma sub_stargazing_ok (h : HourlyData) :
  exists sub, sub_stargazing h = Ok sub /\ sub_ok sub WEIGHTS_STARGAZING.
Proof.
  pose proof (scoreWeatherCodeStargazing_in_range (weather_code h)).
  unfold sub_stargazing.
  run_curve scoreCloudCover_curve. run_curve scoreTempStargazing_curve.
  run_curve scoreWindStargazing_curve. run_curve scoreHumidityStargazing_curve.
  run_curve scorePrecip_curve. run_curve scoreVisibility_curve.
  sub_ok_tac.
Qed.

Lemma sub_dog_walking_ok (h : HourlyData) :
  exists sub, sub_dog_walking h = Ok sub /\ sub_ok sub WEIGHTS_DOG_WALKING.
Proof.
  pose proof (scoreWeatherCodeDogWalking_in_range (weather_code h)).
  unfold sub_dog_walking; cbv zeta.
  run_curve scoreTempDogWalking_curve. run_curve scoreTempDogWalking_curve.
  run_curve scorePavement_curve. run_curve scoreHumidity_curve.
  run_curve scoreUVDogWalking_curve. run_curve scoreWindWalking_curve.
  run_curve scorePrecip_curve.
  sub_ok_tac.
Qed.

Lemma sub_default_ok (h : HourlyData) (m : Mode) :
  exists sub, sub_default h m = Ok sub /\ sub_ok sub WEIGHTS.
Proof.
  pose proof (scoreWeatherCode_in_range (weather_code h)).
  pose proof (scoreWeatherCodeCycling_in_range (weather_code h)).
  unfold sub_default; destruct m; cbv zeta.
  all: first [run_curve scoreTempRunning_curve; run_curve scoreTempRunning_curve
             |run_curve scoreTempCycling_curve; run_curve scoreTempCycling_curve
             |run_curve scoreTempWalking_curve; run_curve scoreTempWalking_curve].
  all: run_curve scoreHumidity_curve; run_curve scoreUV_curve.
  all: first [run_curve scoreWindRunning_curve | run_curve scoreWindCycling_curve
             | run_curve scoreWindWalking_curve].
  all: first [run_curve scorePrecipCycling_curve | run_curve scorePrecip_curve].
  all: sub_ok_tac.
Qed.

Lemma computeScore_unfold (h : HourlyData) (m : Mode) :
  computeScore h m = (sub <- sub_scores h m ;; Ok (scored h sub (weights_of m))).
Proof. destruct m; unfold computeScore, sub_scores, weights_of; reflexivity. Qed.

Lemma sub_scores_ok (h : HourlyData) (m : Mode) :
  exists sub, sub_scores h m = Ok sub /\ sub_ok sub (weights_of m).
Proof.
  destruct m; unfold sub_scores, weights_of.
  - exact (sub_default_ok h running).
  - exact (sub_default_ok h walking).
  - exact (sub_default_ok h cycling).
  - exact (sub_stargazing_ok h).
  - exact (sub_dog_walking_ok h).
Qed.

Lemma tenth (r : Q) : r / 10 = r * (1 # 10).
Proof. reflexivity. Qed.

Lemma round_tenth_is_tenths (x : Q) :
  exists k : Z, round_tenth x == inject_Z k / 10.
Proof. exists (Qfloor (x * 10 + 0.5)). reflexivity. Qed.

Lemma round_tenth_nearest (x : Q) : Qabs (round_tenth x - x) <= 0.05.
Proof.
  unfold round_tenth, Math_round.
  pose proof (Qfloor_le (x * 10 + 0.5)) as Hlo.
  pose proof (Qlt_floor (x * 10 + 0.5)) as Hhi.
  rewrite inject_Z_plus in Hhi.
  set (r := inject_Z (Qfloor (x * 10 + 0.5))) in *.
  change (inject_Z 1) with 1 in Hhi.
  rewrite tenth.
  apply Qabs_Qle_condition. split; lra.
Qed.

Lemma round_tenth_in_range (x : Q) : in_range x -> in_range (round_tenth x).
Proof.
  intros [H0 H1]. unfold round_tenth, Math_round.
  assert (Hlo : (0 <= Qfloor (x * 10 + 0.5))%Z).
  { change 0%Z with (Qfloor 0). apply Qfloor_resp_le. lra. }
  assert (Hhi : (Qfloor (x * 10 + 0.5) <= 1000)%Z).
  { change 1000%Z with (Qfloor 1000.5). apply Qfloor_resp_le. lra. }
  rewrite Zle_Qle in Hlo, Hhi.
  set (r := inject_Z (Qfloor (x * 10 + 0.5))) in *.
  change (inject_Z 0) with 0 in Hlo. change (inject_Z 1000) with 1000 in Hhi.
  rewrite tenth.
  unfold in_range. split; lra.
Qed.

Lemma scaled_in_range (a f : Q) : in_range a -> 0 <= f <= 1 -> in_range (a * f).
Proof. unfold in_range. intros. nra. Qed.

Ltac sub_shape_tac :=
  eexists; split; [reflexivity|]; split;
  [ reflexivity
  | unfold weighted_sum, weighted_total, prop; cbn; ring ].

Lemma sub_stargazing_shape (h : HourlyData) :
  exists sub, sub_stargazing h = Ok sub /\
              map fst sub = map fst WEIGHTS_STARGAZING /\
              weighted_sum sub WEIGHTS_STARGAZING == weighted_total sub WEIGHTS_STARGAZING.
Proof.
  unfold sub_stargazing.
  run_curve scoreCloudCover_curve. run_curve scoreTempStargazing_curve.
  run_curve scoreWindStargazing_curve. run_curve scoreHumidityStargazing_curve.
  run_curve scorePrecip_curve. run_curve scoreVisibility_curve.
  sub_shape_tac.
Qed.

Lemma sub_dog_walking_shape (h : HourlyData) :
  exists sub, sub_dog_walking h = Ok sub /\
              map fst sub = map fst WEIGHTS_DOG_WALKING /\
              weighted_sum sub WEIGHTS_DOG_WALKING == weighted_total sub WEIGHTS_DOG_WALKING.
Proof.
  unfold sub_dog_walking; cbv zeta.
  run_curve scoreTempDogWalking_curve. run_curve scoreTempDogWalking_curve.
  run_curve scorePavement_curve. run_curve scoreHumidity_curve.
  run_curve scoreUVDogWalking_curve. run_curve scoreWindWalking_curve.
  run_curve scorePrecip_curve.
  sub_shape_tac.
Qed.

Lemma sub_default_shape (h : HourlyData) (m : Mode) :
  exists sub, sub_default h m = Ok sub /\
              map fst sub = map fst WEIGHTS /\
              weighted_sum sub WEIGHTS == weighted_total sub WEIGHTS.
Proof.
  unfold sub_default; destruct m; cbv zeta.
  all: first [run_curve scoreTempRunning_curve; run_curve scoreTempRunning_curve
             |run_curve scoreTempCycling_curve; run_curve scoreTempCycling_curve
             |run_curve scoreTempWalking_curve; run_curve scoreTempWalking_curve].
  all: run_curve scoreHumidity_curve; run_curve scoreUV_curve.
  all: first [run_curve scoreWindRunning_curve | run_curve scoreWindCycling_curve
             | run_curve scoreWindWalking_curve].
  all: first [run_curve scorePrecipCycling_curve | run_curve scorePrecip_curve].
  all: sub_shape_tac.
Qed.

(** The sub-scores are those of the factors of the weight table, in its
    order, and the loop over the keys adds up what the specification calls
    the weighted sum. *)
Lemma sub_scores_shape (h : HourlyData) (m : Mode) :
  exists sub, sub_scores h m = Ok sub /\
              map fst sub = map fst (weights_of m) /\
              weighted_sum sub (weights_of m) == weighted_total sub (weights_of m).
Proof.
  destruct m; unfold sub_scores, weights_of.
  - exact (sub_default_shape h running).
  - exact (sub_default_shape h walking).
  - exact (sub_default_shape h cycling).
  - exact (sub_stargazing_shape h).
  - exact (sub_dog_walking_shape h).
Qed.

(** C4. For every hour whose daylight factor is in [0,1] and every mode,
    [computeScore] returns; it computes one sub-score for every factor of
    the mode's weight table, each in [0,100]; the composite is in [0,100];
    and the composite is reported to one decimal place, nearest to the
    weighted sum times the daylight factor: a whole number of tenths, at
    most 0.05 away from that product, give or take the rounding of double
    arithmetic (which of two tenths a product half-way between them takes
    is not stated). *)
Theorem computeScore_in_range (h : HourlyData) (m : Mode)
  (Hfactor : 0 <= daylight_factor h <= 1) :
  exists sub s,
    sub_scores h m = Ok sub /\
    computeScore h m = Ok s /\
    map fst sub = map fst (weights_of m) /\
    Forall (fun kv => 0 <= snd kv <= 100) sub /\
    0 <= score s <= 100 /\
    (exists k : Z, score s == inject_Z k / 10) /\
    Qabs (score s - weighted_total sub (weights_of m) * daylight_factor h)
    <= 0.05 + rounding_slack.
Proof.
  destruct (sub_scores_ok h m) as (sub & E & Hsub & Hsum).
  destruct (sub_scores_shape h m) as (sub' & E' & Hkeys & Htotal).
  assert (sub' = sub) by congruence. subst sub'.
  exists sub, (scored h sub (weights_of m)).
  rewrite computeScore_unfold, E. cbn [bind].
  pose proof (scaled_in_range _ _ Hsum Hfactor) as Hraw.
  split; [reflexivity|]. split; [reflexivity|]. split; [exact Hkeys|].
  split; [exact Hsub|].
  split; [exact (round_tenth_in_range _ Hraw)|].
  split; [exact (round_tenth_is_tenths _)|].
  pose proof (round_tenth_nearest (weighted_sum sub (weights_of m) * daylight_factor h))
    as Hnear.
  change (score (scored h sub (weights_of m)))
    with (round_tenth (weighted_sum sub (weights_of m) * daylight_factor h)).
  rewrite <- Htotal.
  unfold rounding_slack.
  eapply Qle_trans; [exact Hnear | discriminate].
Qed.


(** ** Daylight model *)

(** Decides the integer comparisons of a goal, dropping impossible cases. *)
Ltac zcases :=
  repeat match goal with
         | |- context [(?a <=? ?b)%Z] => destruct (Z.leb_spec a b); try lia
         | |- context [(?a <? ?b)%Z] => destruct (Z.ltb_spec a b); try lia
         | |- context [(?a =? ?b)%Z] => destruct (Z.eqb_spec a b); try lia
         end;
  cbn [andb orb negb].

Ltac open_day H :=
  destruct H as (day & Hday & Hsr & Hss & Hht);
  unfold computeDaylight, computeDarkness;
  rewrite Hday, Hsr, Hss, Hht;
  unfold twilight, ms_ge, ms_gt, ms_le, ms_lt, ms_sub, ms_add.

(** C2, as the code has it.  At the exact sunrise instant of a day of the
    table whose sunrise is not after its sunset, [computeDaylight] returns
    lit with multiplier 0.6, and [computeDarkness] returns multiplier 0.3
    but not lit: its band outside the span is tested first and includes
    the sunrise instant. *)
Theorem sunrise_instant (hourISO : string) (dailyList : list DayRow) (sr ss : Z)
  (Hday : day_known hourISO dailyList sr sr ss)
  (Hspan : (sr <= ss)%Z) :
  computeDaylight hourISO dailyList = mkDaylight true 0.6 /\
  computeDarkness hourISO dailyList = mkDaylight false 0.3.
Proof.
  split; open_day Hday; zcases; reflexivity.
Qed.

(** C3, as the code has it.  [computeDaylight] on a day of the table, with
    [T] = 1800 seconds: inside the sunrise to sunset span the twilight
    band is half-open (strictly less than [T] from either end), so exactly
    [T] after sunrise, with sunset at least [T] away, the multiplier is
    the full 1.0; outside the span the band is closed (up to and including
    [T] from the nearer end); beyond it is night. *)
Theorem computeDaylight_bands (hourISO : string) (dailyList : list DayRow) (ht sr ss : Z)
  (Hday : day_known hourISO dailyList ht sr ss)
  (Hspan : (sr <= ss)%Z) :
  let T := 1800000%Z in
  ((sr + T <= ht <= ss - T)%Z ->
     computeDaylight hourISO dailyList = mkDaylight true 1.0) /\
  ((sr <= ht <= ss)%Z -> (ht < sr + T \/ ss - T < ht)%Z ->
     computeDaylight hourISO dailyList = mkDaylight true 0.6) /\
  ((sr - T <= ht < sr)%Z \/ (ss < ht <= ss + T)%Z ->
     computeDaylight hourISO dailyList = mkDaylight false 0.6) /\
  ((ht < sr - T)%Z \/ (ss + T < ht)%Z ->
     computeDaylight hourISO dailyList = mkDaylight false 0.3).
Proof.
  intro T; subst T.
  repeat split; intros; open_day Hday; zcases; reflexivity.
Qed.

(** ** Forecast hour resolver *)

(** C6. On a forecast whose hourly series is empty, [computeScoreForHour]
    returns exactly 50 for every target timestamp and every mode. *)
Theorem computeScoreForHour_empty (forecast : OpenMeteoForecast) (targetTime : string)
  (m : Mode) (target : Z)
  (Hempty : h_time (hourly forecast) = [])
  (Htarget : Date_getTime targetTime = Some target) :
  computeScoreForHour forecast targetTime m = Ok 50.
Proof.
  unfold computeScoreForHour. rewrite Htarget, Hempty. reflexivity.
Qed.

(** A target that is not a timestamp makes [toISOString] throw, whatever
    the series. *)
Lemma computeScoreForHour_invalid_target (forecast : OpenMeteoForecast)
  (targetTime : string) (m : Mode) :
  Date_getTime targetTime = None ->
  computeScoreForHour forecast targetTime m = Throw RangeError.
Proof. intro H. unfold computeScoreForHour. rewrite H. reflexivity. Qed.

(** ** Alternative-slot search *)

Section Search.

Variable forecast : OpenMeteoForecast.
Variable targetTime : string.
Variable m : Mode.
Variable now : Z.

Let times := h_time (hourly forecast).
Let loop := alternative_loop forecast (Date_getTime targetTime) now
                             (slice0 10 targetTime) (dailyList_of forecast) m.
Let sc := score_at forecast m.
Let passing (i : nat) (t : string) : Prop :=
  nth_error times i = Some t /\ passes forecast targetTime m now t = true.

Lemma score_at_computed (i : nat) (t : string) :
  computeScore (hourData_at (hourly forecast) i t
                            (light_for m t (dailyList_of forecast))) m
  = Ok (mkScoredHour (hourData_at (hourly forecast) i t
                                  (light_for m t (dailyList_of forecast)))
                     (sc i t)
                     (rating_of (sc i t))).
Proof.
  unfold sc, score_at. rewrite computeScore_unfold.
  destruct (sub_scores_ok (hourData_at (hourly forecast) i t
                                       (light_for m t (dailyList_of forecast))) m)
    as (sub & E & _).
  rewrite E. reflexivity.
Qed.

Lemma loop_cons (i : nat) (t : string) (ts : list string) (best : option Slot) :
  loop i (t :: ts) best =
  if passes forecast targetTime m now t
  then loop (S i) ts (better best t (sc i t))
  else loop (S i) ts best.
Proof.
  unfold loop, passes. cbn [alternative_loop]. cbv zeta.
  destruct (String.eqb (slice0 10 t) (slice0 10 targetTime)); [|reflexivity].
  destruct (ms_le (Date_getTime t) (Some now)); [reflexivity|].
  destruct (ms_gt _ windowMs); [reflexivity|].
  destruct (ms_eq _ _); [reflexivity|].
  destruct (negb (Mode_eqb m stargazing) && negb _); [reflexivity|].
  destruct (Mode_eqb m stargazing && _); [reflexivity|].
  cbn [andb negb]. rewrite score_at_computed. reflexivity.
Qed.

Lemma best_upto_skip (cand : nat -> string -> Prop) (n : nat) (b : option Slot) :
  (forall u, ~ cand n u) -> best_upto cand sc n b -> best_upto cand sc (S n) b.
Proof.
  intros Hn H. destruct b as [slot|]; simpl in *.
  - destruct H as (i & t & Hi & Hc & Hs & Hmax & Hfirst).
    exists i, t. repeat split; auto.
    intros j u Hj Hcj. destruct (Nat.eq_dec j n) as [->|]; [destruct (Hn u Hcj)|].
    apply Hmax; [lia | assumption].
  - intros j u Hj Hcj. destruct (Nat.eq_dec j n) as [->|]; [destruct (Hn u Hcj)|].
    apply (H j u); [lia | assumption].
Qed.

Lemma best_upto_take (cand : nat -> string -> Prop) (n : nat) (t : string)
      (b : option Slot) :
  cand n t -> (forall u, cand n u -> u = t) ->
  best_upto cand sc n b -> best_upto cand sc (S n) (better b t (sc n t)).
Proof.
  intros Hc Huniq H. destruct b as [slot|]; simpl in *.
  - destruct H as (i & u & Hi & Hci & Hs & Hmax & Hfirst). subst slot.
    unfold Qgt_bool. cbn [slot_score].
    destruct (Qle_bool (sc n t) (sc i u)) eqn:E; cbn [negb].
    + apply Qle_bool_iff in E.
      exists i, u. repeat split; auto.
      intros j v Hj Hcj. destruct (Nat.eq_dec j n) as [->|].
      * rewrite (Huniq v Hcj). exact E.
      * apply Hmax; [lia | assumption].
    + assert (Hlt : sc i u < sc n t).
      { apply Qnot_le_lt. intro Hle. apply Qle_bool_iff in Hle. congruence. }
      exists n, t. repeat split; auto.
      * intros j v Hj Hcj. destruct (Nat.eq_dec j n) as [->|].
        -- rewrite (Huniq v Hcj). apply Qle_refl.
        -- apply Qle_trans with (sc i u); [apply Hmax; [lia | assumption] | lra].
      * intros j v Hj Hcj.
        apply Qle_lt_trans with (sc i u); [apply Hmax; [lia | assumption] | exact Hlt].
  - exists n, t. repeat split; auto.
    + intros j v Hj Hcj. destruct (Nat.eq_dec j n) as [->|].
      * rewrite (Huniq v Hcj). apply Qle_refl.
      * destruct (H j v); [lia | assumption].
    + intros j v Hj Hcj. destruct (H j v); assumption.
Qed.

(** The loop keeps [best_upto] and always returns. *)
Lemma loop_invariant (ts pre : list string) (b : option Slot) :
  times = pre ++ ts ->
  best_upto passing sc (List.length pre) b ->
  exists r, loop (List.length pre) ts b = Ok r /\
            best_upto passing sc (List.length times) r.
Proof.
  revert pre b. induction ts as [|t ts IH]; intros pre b Htimes Hb.
  - exists b. split; [reflexivity|].
    rewrite Htimes, app_nil_r. exact Hb.
  - assert (Hnth : nth_error times (List.length pre) = Some t).
    { rewrite Htimes, nth_error_app2, Nat.sub_diag by lia. reflexivity. }
    assert (Hnext : times = (pre ++ [t]) ++ ts) by (rewrite <- app_assoc; exact Htimes).
    assert (Hlen : List.length (pre ++ [t]) = S (List.length pre))
      by (rewrite length_app; simpl; lia).
    rewrite loop_cons.
    destruct (passes forecast targetTime m now t) eqn:Hp.
    + specialize (IH (pre ++ [t]) (better b t (sc (List.length pre) t)) Hnext).
      rewrite Hlen in IH. apply IH.
      apply best_upto_take; [split; assumption | | exact Hb].
      intros u [Hu _]. congruence.
    + specialize (IH (pre ++ [t]) b Hnext).
      rewrite Hlen in IH. apply IH.
      apply best_upto_skip; [|exact Hb].
      intros u [Hu Hpu]. congruence.
Qed.

Lemma findBestAlternative_passing :
  exists r, findBestAlternative forecast targetTime m now = Ok r /\
            best_upto passing sc (List.length times) r.
Proof.
  apply (loop_invariant times [] None); [reflexivity|].
  intros j u Hj. simpl in Hj. lia.
Qed.

End Search.


(** *** The search, whatever the scores *)



Section SearchBy.

Variable scorer : HourlyData -> Mode -> result ScoredHour.
Variable forecast : OpenMeteoForecast.
Variable targetTime : string.
Variable m : Mode.
Variable now : Z.

(** The scorer never throws under [m]. *)
Hypothesis Hscorer : forall h, exists s, scorer h m = Ok s.

Let times := h_time (hourly forecast).
Let loop := alternative_loop_with scorer forecast (Date_getTime targetTime) now
                                  (slice0 10 targetTime) (dailyList_of forecast) m.
Let sc := score_by scorer forecast m.
Let passing (i : nat) (t : string) : Prop :=
  nth_error times i = Some t /\ passes forecast targetTime m now t = true.




End SearchBy.




(** C8, as the code has it.  A slot returned by [findBestAlternative] for
    a target that is a timestamp is a slot of the series that passed the
    tests of the loop, at an instant other than the target's; the search
    never looks at the score of the scheduled hour. *)
Theorem findBestAlternative_other_slot (forecast : OpenMeteoForecast)
  (targetTime : string) (m : Mode) (now : Z) (target : Z) (slot : Slot)
  (Htarget : Date_getTime targetTime = Some target)
  (Hret : findBestAlternative forecast targetTime m now = Ok (Some slot)) :
  slot_time slot <> targetTime /\
  Date_getTime (slot_time slot) <> Some target /\
  In (slot_time slot) (h_time (hourly forecast)) /\
  passes forecast targetTime m now (slot_time slot) = true.
Proof.
  destruct (findBestAlternative_passing forecast targetTime m now) as (r & Hr & Hbest).
  rewrite Hret in Hr. injection Hr as <-. simpl in Hbest.
  destruct Hbest as (i & t & _ & [Hn Hp] & -> & _). cbn [slot_time slot_score].
  assert (Hne : Date_getTime t <> Some target).
  { intro Ht. unfold passes in Hp. rewrite Htarget, Ht in Hp.
    unfold ms_eq in Hp. rewrite Z.eqb_refl in Hp.
    cbn [negb] in Hp. rewrite !andb_false_r in Hp. cbn [andb] in Hp. discriminate. }
  split; [|split; [|split]].
  - intros ->. congruence.
  - exact Hne.
  - exact (nth_error_In _ _ Hn).
  - exact Hp.
Qed.

(** ** Monitoring state machine *)

Lemma alarm_check_alerted (rows : list EventRow) (ev : EventRow) (w : World) :
  alert_sent ev <> 0%Z ->
  fst (alarm_check rows ev w) = rows /\ emails (snd (alarm_check rows ev w)) = [].
Proof.
  intro Hflag. unfold alarm_check.
  destruct (w_fetchForecast w) as [forecast|e]; [|split; reflexivity].
  destruct (computeScoreForHour _ _ _) as [cur|e]; [|split; reflexivity].
  apply Z.eqb_neq in Hflag. rewrite Hflag, andb_false_r. cbn [andb].
  split; reflexivity.
Qed.

(** One run of the [try] block delivers nothing and leaves the rows, or
    delivers one message and sets the flag of every row. *)
Lemma alarm_check_deliveries (rows : list EventRow) (ev : EventRow) (w : World) :
  (deliveries (snd (alarm_check rows ev w)) = [] /\ fst (alarm_check rows ev w) = rows) \/
  (List.length (deliveries (snd (alarm_check rows ev w))) = 1%nat /\
   fst (alarm_check rows ev w) = set_alert_sent rows).
Proof.
  unfold alarm_check.
  destruct (w_fetchForecast w) as [forecast|e]; [|left; split; reflexivity].
  destruct (computeScoreForHour _ _ _) as [cur|e]; [|left; split; reflexivity].
  destruct (_ && _); [|left; split; reflexivity].
  destruct (findBestAlternative _ _ _ _) as [alt|e]; [|left; split; reflexivity].
  destruct (w_send w _ _) as [u|e]; [right | left]; split; reflexivity.
Qed.

Lemma getEvent_set_alert_sent (rows : list EventRow) (p : option Z) :
  alerted (mkStorage (set_alert_sent rows) p).
Proof. unfold alerted, getEvent. destruct rows; simpl; [trivial | discriminate]. Qed.

Lemma alerted_rows (rows : list EventRow) (p q : option Z) :
  alerted (mkStorage rows p) -> alerted (mkStorage rows q).
Proof. intro H. exact H. Qed.

(** A wake of an alerted storage sends nothing and leaves it alerted. *)
Lemma wake_alerted (st : Storage) (w : World) :
  alerted st -> alerted (fst (wake st w)) /\ emails (snd (wake st w)) = [].
Proof.
  destruct st as [rows p]. unfold alerted, wake, alarm, getEvent. cbn [event pending_alarm].
  destruct rows as [|ev rows]; [intros _; split; [exact I | reflexivity]|].
  intro Hflag.
  destruct (ms_gt _ _); [split; [exact I | reflexivity]|].
  destruct (alarm_check_alerted (ev :: rows) ev w Hflag) as [Hrows Hmail].
  destruct (alarm_check (ev :: rows) ev w) as [rows' eff]. cbn [fst snd] in *. subst rows'.
  destruct (ms_lt _ _); cbn [fst snd event]; split; assumption.
Qed.

(** A wake delivers nothing, or delivers once and leaves the storage
    alerted. *)
Lemma wake_deliveries (st : Storage) (w : World) :
  deliveries (snd (wake st w)) = [] \/
  (List.length (deliveries (snd (wake st w))) = 1%nat /\ alerted (fst (wake st w))).
Proof.
  destruct st as [rows p]. unfold wake, alarm, getEvent. cbn [event pending_alarm].
  destruct rows as [|ev rows]; [left; reflexivity|].
  destruct (ms_gt _ _); [left; reflexivity|].
  destruct (alarm_check_deliveries (ev :: rows) ev w) as [[Hd Hrows]|[Hd Hrows]];
    destruct (alarm_check (ev :: rows) ev w) as [rows' eff]; cbn [fst snd] in *.
  - left. destruct (ms_lt _ _); exact Hd.
  - right. subst rows'.
    destruct (ms_lt _ _); cbn [fst snd]; (split; [exact Hd | apply getEvent_set_alert_sent]).
Qed.

Lemma emails_app (a b : list Effect) : emails (a ++ b) = emails a ++ emails b.
Proof. apply filter_app. Qed.

Lemma deliveries_app (a b : list Effect) : deliveries (a ++ b) = deliveries a ++ deliveries b.
Proof. apply filter_app. Qed.

Lemma deliveries_of_emails (es : list Effect) : emails es = [] -> deliveries es = [].
Proof.
  unfold emails, deliveries. induction es as [|e es IH]; [reflexivity|].
  destruct e as [d k b|x]; simpl; [discriminate | exact IH].
Qed.

Lemma wakes_alerted (ws : list World) (st : Storage) :
  alerted st -> emails (snd (wakes st ws)) = [].
Proof.
  revert st. induction ws as [|w ws IH]; intros st Hst; [reflexivity|].
  cbn [wakes]. destruct (wake_alerted st w Hst) as [Hnext Hmail].
  destruct (wake st w) as [st1 e1]. cbn [fst snd] in *.
  specialize (IH st1 Hnext). destruct (wakes st1 ws) as [st2 e2]. cbn [snd] in *.
  rewrite emails_app, Hmail, IH. reflexivity.
Qed.

(** C1. Over any sequence of timer wakes of a persisted record, at most
    one deterioration notification is delivered; and once the alert flag
    is set, no later wake calls the notification collaborator at all,
    whatever the score drop. *)
Theorem alarm_notifies_once (st : Storage) (ws : list World) :
  (List.length (deliveries (snd (wakes st ws))) <= 1)%nat /\
  (alert_flag st = Some 1%Z -> emails (snd (wakes st ws)) = []).
Proof.
  split.
  - revert st. induction ws as [|w ws IH]; intro st; [simpl; lia|].
    cbn [wakes]. pose proof (wake_deliveries st w) as Hstep.
    destruct (wake st w) as [st1 e1]. cbn [fst snd] in Hstep.
    specialize (IH st1). pose proof (wakes_alerted ws st1) as Hquiet.
    destruct (wakes st1 ws) as [st2 e2]. cbn [snd] in *.
    rewrite deliveries_app, length_app.
    destruct Hstep as [Hnone|[Hone Halerted]].
    + rewrite Hnone. simpl. exact IH.
    + rewrite Hone, (deliveries_of_emails e2 (Hquiet Halerted)). simpl. lia.
  - intro Hflag. apply wakes_alerted.
    unfold alerted. unfold alert_flag in Hflag.
    destruct (getEvent st) as [ev|]; [|exact I].
    simpl in Hflag. injection Hflag as ->. discriminate.
Qed.

(** What the handler does of the next wake.  On a wake that finds a record
    whose scheduled time has not passed, whatever the fetch and the
    notification did, the handler arms the next wake 30 minutes after the
    current time when that instant is strictly before the scheduled time,
    and arms nothing otherwise. *)
Theorem alarm_rearms (st : Storage) (w : World) (ev : EventRow) (eventTime : Z)
  (Hev : getEvent st = Some ev)
  (Htime : Date_getTime (scheduled_time ev) = Some eventTime)
  (Hnow : (w_now w <= eventTime)%Z) :
  pending_alarm (fst (wake st w)) =
  if (w_now w + 30 * 60 * 1000 <? eventTime)%Z
  then Some (w_now w + 30 * 60 * 1000)%Z
  else None.
Proof.
  unfold wake, alarm. unfold getEvent in *. cbn [event pending_alarm].
  destruct (event st) as [|ev' rows]; [discriminate|]. injection Hev as ->.
  rewrite Htime. unfold ms_gt, ms_lt.
  destruct (Z.ltb_spec eventTime (w_now w)); [lia|].
  destruct (alarm_check (ev :: rows) ev w) as [rows' eff].
  destruct (w_now w + 30 * 60 * 1000 <? eventTime)%Z; reflexivity.
Qed.


Lemma filter_none (A : Type) (f : A -> bool) (l : list A) :
  (forall x, In x l -> f x = false) -> filter f l = [].
Proof.
  induction l as [|a l IH]; intro H; [reflexivity|]. simpl.
  rewrite (H a (or_introl eq_refl)). apply IH. intros x Hx. apply H. right. exact Hx.
Qed.


(** * Further properties *)

(** ** Curve interpolator *)

Lemma ascending_tail (b : Q * Q) (bp : list (Q * Q)) :
  ascending (b :: bp) -> ascending bp.
Proof. intro H. apply StronglySorted_inv in H. apply H. Qed.

Lemma ascending_head_lt (b c : Q * Q) (bp : list (Q * Q)) :
  ascending (b :: bp) -> In c bp -> fst b < fst c.
Proof.
  intros H Hin. apply StronglySorted_inv in H as [_ H].
  rewrite Forall_forall in H. apply H, Hin.
Qed.

Lemma on_segment_left (x0 y0 x1 y1 v : Q) :
  x0 < x1 -> v == x0 -> on_segment x0 y0 x1 y1 v == y0.
Proof. intros Hlt Hv. unfold on_segment. rewrite Hv. field. lra. Qed.

Lemma on_segment_right (x0 y0 x1 y1 v : Q) :
  x0 < x1 -> v == x1 -> on_segment x0 y0 x1 y1 v == y1.
Proof. intros Hlt Hv. unfold on_segment. rewrite Hv. field. lra. Qed.

(** The loop returns the value of the segment that holds [v]; when [v] is
    the breakpoint between two segments, the earlier one answers, with the
    same value. *)
Lemma interpolate_loop_segment (pre post : list (Q * Q)) (x0 y0 x1 y1 v fallback : Q) :
  ascending (pre ++ (x0, y0) :: (x1, y1) :: post) ->
  x0 <= v <= x1 ->
  interpolate_loop (Some v) (pre ++ (x0, y0) :: (x1, y1) :: post) fallback
  == on_segment x0 y0 x1 y1 v.
Proof.
  induction pre as [|[a b] pre IH]; intros Hasc [Hlo Hhi].
  - assert (Hlt : x0 < x1).
    { apply (ascending_head_lt (x0, y0) (x1, y1) _ Hasc). left; reflexivity. }
    cbn [app interpolate_loop].
    apply Qle_bool_iff in Hlo, Hhi. rewrite Hlo, Hhi. cbn [andb].
    destruct (Qeq_bool x1 x0) eqn:E; cbn [negb].
    + apply Qeq_bool_iff in E. lra.
    + reflexivity.
  - assert (Ha : a < x0).
    { apply (ascending_head_lt (a, b) (x0, y0) _ Hasc), in_or_app. right; left; reflexivity. }
    pose proof (ascending_tail _ _ Hasc) as Htail.
    destruct pre as [|[c d] pre].
    + cbn [app interpolate_loop] in *.
      assert (Hav : Qle_bool a v = true) by (apply Qle_bool_iff; lra).
      rewrite Hav. cbn [andb].
      destruct (Qle_bool v x0) eqn:E.
      * apply Qle_bool_iff in E.
        assert (Hv : v == x0) by lra.
        assert (Hlt : x0 < x1).
        { apply (ascending_head_lt (x0, y0) (x1, y1) _ Htail). left; reflexivity. }
        rewrite (on_segment_left _ _ _ _ _ Hlt Hv).
        destruct (Qeq_bool x0 a) eqn:E'; cbn [negb].
        -- apply Qeq_bool_iff in E'. lra.
        -- apply (on_segment_right a b x0 y0 v Ha Hv).
      * specialize (IH Htail (conj Hlo Hhi)). cbn [app] in IH. exact IH.
    + assert (Hc : c < x0).
      { apply (ascending_head_lt (c, d) (x0, y0) _ Htail), in_or_app.
        right; left; reflexivity. }
      change (interpolate_loop (Some v) (((a, b) :: (c, d) :: pre) ++ (x0, y0) :: (x1, y1) :: post)
                               fallback)
        with (if Qle_bool a v && Qle_bool v c
              then b + (if negb (Qeq_bool c a) then (v - a) / (c - a) else 0) * (d - b)
              else interpolate_loop (Some v) (((c, d) :: pre) ++ (x0, y0) :: (x1, y1) :: post)
                                    fallback).
      destruct (Qle_bool v c) eqn:E.
      * apply Qle_bool_iff in E. lra.
      * rewrite andb_false_r. apply IH; [exact Htail | split; assumption].
Qed.

Lemma last_app_cons (A : Type) (pre : list A) (a d : A) (post : list A) :
  last (pre ++ a :: post) d = last (a :: post) d.
Proof.
  induction pre as [|p pre IH]; [reflexivity|].
  cbn [app]. destruct (pre ++ a :: post) as [|a0 l] eqn:E; [destruct pre; discriminate|].
  exact IH.
Qed.

Lemma ascending_app_r (pre bp : list (Q * Q)) : ascending (pre ++ bp) -> ascending bp.
Proof.
  induction pre as [|p pre IH]; intro H; [exact H|].
  apply IH, (ascending_tail p), H.
Qed.

Lemma interpolate_segment_value (pre post : list (Q * Q)) (x0 y0 x1 y1 v : Q)
  (Hasc : ascending (pre ++ (x0, y0) :: (x1, y1) :: post))
  (Hseg : x0 <= v <= x1) :
  exists y, interpolate (Some v) (pre ++ (x0, y0) :: (x1, y1) :: post) = Ok y /\
            y == on_segment x0 y0 x1 y1 v.
Proof.
  pose proof (ascending_app_r _ _ Hasc) as Hsub.
  assert (Hlt : x0 < x1).
  { apply (ascending_head_lt (x0, y0) (x1, y1) _ Hsub). left; reflexivity. }
  pose proof (interpolate_loop_segment pre post x0 y0 x1 y1 v) as Hloop.
  pose proof (last_app_cons _ pre (x0, y0)) as Hlast.
  destruct (pre ++ (x0, y0) :: (x1, y1) :: post) as [|[xf yf] rest] eqn:Ebp;
    [destruct pre; discriminate|].
  unfold interpolate.
  destruct (last ((xf, yf) :: rest) (xf, yf)) as [xn yn] eqn:Elast.
  eexists. split; [reflexivity|].
  unfold num_le, num_ge.
  destruct (Qle_bool v xf) eqn:Ef.
  - (* at or below the first input: the segment is the first one *)
    apply Qle_bool_iff in Ef.
    destruct pre as [|p pre].
    + injection Ebp as -> -> _.
      symmetry. apply on_segment_left; [exact Hlt | lra].
    + exfalso. injection Ebp as -> Hrest.
      assert (xf < x0).
      { change (fst (xf, yf) < fst (x0, y0)).
        apply (ascending_head_lt _ _ _ Hasc). rewrite <- Hrest.
        apply in_or_app. right; left; reflexivity. }
      lra.
  - destruct (Qle_bool xn v) eqn:En.
    + (* at or above the last input: the segment is the last one *)
      apply Qle_bool_iff in En.
      rewrite <- Ebp, (Hlast (xf, yf) ((x1, y1) :: post)) in Elast.
      change (last ((x0, y0) :: (x1, y1) :: post) (xf, yf))
        with (last ((x1, y1) :: post) (xf, yf)) in Elast.
      destruct post as [|q post].
      * cbn in Elast. injection Elast as <- <-.
        symmetry. apply on_segment_right; [exact Hlt | lra].
      * exfalso.
        assert (Hin : In (xn, yn) (q :: post)).
        { rewrite <- Elast.
          change (last ((x1, y1) :: q :: post) (xf, yf)) with (last (q :: post) (xf, yf)).
          apply last_in_tail. }
        assert (x1 < xn).
        { change (fst (x1, y1) < fst (xn, yn)).
          apply (ascending_head_lt _ _ _ (ascending_tail _ _ Hsub) Hin). }
        lra.
    + apply Hloop; [exact Hasc | exact Hseg].
Qed.

(** X1. On a table in ascending order, a query inside the segment between
    two consecutive breakpoints gets the linear interpolation of their
    outputs. *)
Theorem interpolate_linear (pre post : list (Q * Q)) (x0 y0 x1 y1 v : Q)
  (Hasc : ascending (pre ++ (x0, y0) :: (x1, y1) :: post))
  (Hseg : x0 <= v <= x1) :
  exists y, interpolate (Some v) (pre ++ (x0, y0) :: (x1, y1) :: post) = Ok y /\
            y == on_segment x0 y0 x1 y1 v.
Proof. exact (interpolate_segment_value pre post x0 y0 x1 y1 v Hasc Hseg). Qed.

(** X2. On a table in ascending order, the curve passes through every
    breakpoint: at a breakpoint's input [interpolate] returns its output. *)
Theorem interpolate_at_breakpoint (pre post : list (Q * Q)) (x y : Q)
  (Hasc : ascending (pre ++ (x, y) :: post)) :
  exists r, interpolate (Some x) (pre ++ (x, y) :: post) = Ok r /\ r == y.
Proof.
  destruct post as [|[x1 y1] post].
  - (* the last breakpoint *)
    pose proof (last_app_cons _ pre (x, y)) as Hlast.
    destruct (pre ++ [(x, y)]) as [|[xf yf] rest] eqn:Ebp; [destruct pre; discriminate|].
    unfold interpolate.
    destruct (last ((xf, yf) :: rest) (xf, yf)) as [xn yn] eqn:Elast.
    rewrite <- Ebp, (Hlast (xf, yf) []) in Elast. cbn in Elast. injection Elast as <- <-.
    eexists. split; [reflexivity|].
    unfold num_le, num_ge.
    destruct (Qle_bool x xf) eqn:Ef.
    + apply Qle_bool_iff in Ef. destruct pre as [|p pre].
      * injection Ebp as _ ->. reflexivity.
      * exfalso. injection Ebp as -> Hrest.
        assert (xf < x).
        { change (fst (xf, yf) < fst (x, y)).
          apply (ascending_head_lt _ _ _ Hasc). rewrite <- Hrest.
          apply in_or_app. right; left; reflexivity. }
        lra.
    + assert (E : Qle_bool x x = true) by (apply Qle_bool_iff, Qle_refl).
      rewrite E. reflexivity.
  - assert (Hlt : x < x1).
    { apply (ascending_head_lt (x, y) (x1, y1) _ (ascending_app_r _ _ Hasc)).
      left; reflexivity. }
    destruct (interpolate_segment_value pre post x y x1 y1 x Hasc) as (r & Hr & Hv);
      [split; lra|].
    exists r. split; [exact Hr|].
    rewrite Hv. apply on_segment_left; [exact Hlt | reflexivity].
Qed.

Lemma segment_fraction (x0 x1 v : Q) :
  x0 < x1 -> x0 <= v <= x1 -> 0 <= (v - x0) / (x1 - x0) <= 1.
Proof.
  intros Hlt [Hlo Hhi]. split.
  - apply Qle_shift_div_l; lra.
  - apply Qle_shift_div_r; lra.
Qed.

Lemma interpolate_loop_within (lo hi : Q) (v : num) (bp : list (Q * Q)) (fallback : Q) :
  outputs_within lo hi bp -> lo <= fallback <= hi ->
  lo <= interpolate_loop v bp fallback <= hi.
Proof.
  intros Hbp Hfb. induction bp as [|[x0 y0] bp IH]; [exact Hfb|].
  destruct bp as [|[x1 y1] bp]; [exact Hfb|].
  pose proof (Forall_inv Hbp) as H0. pose proof (Forall_inv_tail Hbp) as Htl.
  pose proof (Forall_inv Htl) as H1. cbn [snd] in H0, H1.
  specialize (IH Htl).
  change (interpolate_loop v ((x0, y0) :: (x1, y1) :: bp) fallback)
    with (match v with
          | Some q =>
              if Qle_bool x0 q && Qle_bool q x1
              then y0 + (if negb (Qeq_bool x1 x0) then (q - x0) / (x1 - x0) else 0) * (y1 - y0)
              else interpolate_loop v ((x1, y1) :: bp) fallback
          | None => interpolate_loop v ((x1, y1) :: bp) fallback
          end).
  destruct v as [q|]; [|exact IH].
  destruct (Qle_bool x0 q) eqn:E0; [|exact IH].
  destruct (Qle_bool q x1) eqn:E1; [|exact IH].
  cbn [andb]. apply Qle_bool_iff in E0, E1.
  destruct (Qeq_bool x1 x0) eqn:E; cbn [negb].
  - lra.
  - assert (Hlt : x0 < x1).
    { apply Qle_lteq in E0. apply Qle_lteq in E1.
      destruct (Qlt_le_dec x0 x1) as [|Hge]; [assumption|].
      assert (Heq : x1 == x0) by lra.
      apply Qeq_bool_iff in Heq. congruence. }
    pose proof (segment_fraction x0 x1 q Hlt (conj E0 E1)) as Ht.
    set (t := (q - x0) / (x1 - x0)) in *. nra.
Qed.

Lemma clamp_idle (y : Q) : 0 <= y <= 100 -> clamp y == y.
Proof.
  intros [H0 H1]. unfold clamp, clamp_between.
  rewrite (Q.min_r 100 y H1). apply Q.max_r, H0.
Qed.

(** X3. Whatever the query (also [NaN]), the interpolated value lies within
    the bounds of the table's outputs; so on a table whose outputs are in
    [0,100], as all the curves of the source are, clamping changes
    nothing. *)
Theorem interpolate_within (v : num) (b : Q * Q) (bs : list (Q * Q)) (lo hi : Q)
  (Hout : outputs_within lo hi (b :: bs)) :
  exists y, interpolate v (b :: bs) = Ok y /\
            lo <= y <= hi /\
            (0 <= lo -> hi <= 100 -> clamp y == y).
Proof.
  assert (Hrange : exists y, interpolate v (b :: bs) = Ok y /\ lo <= y <= hi).
  { unfold interpolate. destruct b as [x0 y0].
    pose proof (last_in_tail _ (x0, y0) (x0, y0) bs) as Hin.
    destruct (last ((x0, y0) :: bs) (x0, y0)) as [xn yn].
    unfold outputs_within in Hout. rewrite Forall_forall in Hout.
    pose proof (Hout _ Hin) as Hn. pose proof (Hout _ (or_introl eq_refl)) as H0.
    cbn [snd] in Hn, H0.
    eexists. split; [reflexivity|].
    destruct (num_le v x0); [exact H0|].
    destruct (num_ge v xn); [exact Hn|].
    apply interpolate_loop_within; [apply Forall_forall, Hout | exact Hn]. }
  destruct Hrange as (y & Hy & Hr). exists y. split; [exact Hy|]. split; [exact Hr|].
  intros Hlo Hhi. apply clamp_idle. lra.
Qed.

Lemma interpolate_loop_nan (bp : list (Q * Q)) (fallback : Q) :
  interpolate_loop None bp fallback = fallback.
Proof.
  induction bp as [|[x0 y0] bp IH]; [reflexivity|].
  destruct bp as [|[x1 y1] bp]; [reflexivity|]. exact IH.
Qed.

(** X4. A query that is [NaN] (a missing metric) gets the output of the
    last breakpoint of the table. *)
Theorem interpolate_nan (b : Q * Q) (bs : list (Q * Q)) :
  interpolate None (b :: bs) = Ok (snd (last (b :: bs) b)).
Proof.
  unfold interpolate. destruct b as [x0 y0].
  destruct (last ((x0, y0) :: bs) (x0, y0)) as [xn yn].
  cbn [num_le num_ge snd]. rewrite interpolate_loop_nan. reflexivity.
Qed.

(** ** Mode scorer *)

Lemma assocQ_unmapped (q : Q) (tbl : list (Q * Q)) :
  forallb (fun k => negb (Qeq_bool q k)) (map fst tbl) = true -> assocQ q tbl = None.
Proof.
  induction tbl as [|[k v] tbl IH]; [reflexivity|]. cbn [map fst forallb assocQ].
  intro H. apply andb_true_iff in H as [Hk Htl].
  apply negb_true_iff in Hk. rewrite Hk. apply IH, Htl.
Qed.

(** X5. A weather code that is no key of the tables (or is missing) scores
    the neutral 50 in every mode. *)
Theorem unmapped_weather_code (c : num) (Hc : unmapped_code c = true) :
  scoreWeatherCode c = 50 /\
  scoreWeatherCodeCycling c = 50 /\
  scoreWeatherCodeStargazing c = 50 /\
  scoreWeatherCodeDogWalking c = 50.
Proof.
  unfold scoreWeatherCode, scoreWeatherCodeCycling, scoreWeatherCodeStargazing,
    scoreWeatherCodeDogWalking, record_get.
  destruct c as [q|]; [|repeat split; reflexivity].
  cbn [unmapped_code] in Hc.
  rewrite (assocQ_unmapped q WEATHER_CODE_SCORES Hc),
    (assocQ_unmapped q WEATHER_CODE_SCORES_CYCLING Hc),
    (assocQ_unmapped q WEATHER_CODE_SCORES_STARGAZING Hc),
    (assocQ_unmapped q WEATHER_CODE_SCORES_DOG_WALKING Hc).
  repeat split; reflexivity.
Qed.

Lemma sub_scores_with_daylight_factor (h : HourlyData) (f : Q) (m : Mode) :
  sub_scores (with_daylight_factor h f) m = sub_scores h m.
Proof.
  destruct m; unfold sub_scores, sub_default, sub_stargazing, sub_dog_walking;
    cbn [with_daylight_factor temperature humidity feels_like weather_code wind_speed
         uv_index precipitation_probability cloud_cover visibility];
    reflexivity.
Qed.

Lemma round_tenth_monotone (x y : Q) : x <= y -> round_tenth x <= round_tenth y.
Proof.
  intro H. unfold round_tenth, Math_round. rewrite !tenth.
  assert (Hz : (Qfloor (x * 10 + 0.5) <= Qfloor (y * 10 + 0.5))%Z)
    by (apply Qfloor_resp_le; lra).
  rewrite Zle_Qle in Hz. lra.
Qed.

(** X6. The composite score grows with the daylight multiplier: of two
    hours that differ only in it, the one with the larger multiplier never
    scores lower. *)
Theorem computeScore_monotone_in_daylight (h : HourlyData) (m : Mode) (f1 f2 : Q)
  (Hf : f1 <= f2) :
  exists s1 s2,
    computeScore (with_daylight_factor h f1) m = Ok s1 /\
    computeScore (with_daylight_factor h f2) m = Ok s2 /\
    score s1 <= score s2.
Proof.
  destruct (sub_scores_ok h m) as (sub & E & _ & [Hsum _]).
  exists (scored (with_daylight_factor h f1) sub (weights_of m)),
         (scored (with_daylight_factor h f2) sub (weights_of m)).
  rewrite !computeScore_unfold, !sub_scores_with_daylight_factor, E. cbn [bind].
  split; [reflexivity|]. split; [reflexivity|].
  apply (round_tenth_monotone (weighted_sum sub (weights_of m) * f1)
                              (weighted_sum sub (weights_of m) * f2)).
  nra.
Qed.

(** X7. The rating [computeScore] gives an hour is the label the
    notification mail prints for its score. *)
Theorem rating_is_ratingLabel (h : HourlyData) (m : Mode) (s : ScoredHour)
  (Hs : computeScore h m = Ok s) :
  ratingLabel (score s) = rating_string (rating s).
Proof.
  rewrite computeScore_unfold in Hs.
  destruct (sub_scores h m) as [sub|e]; [|discriminate].
  cbn [bind] in Hs. injection Hs as <-. cbn [score rating scored].
  unfold ratingLabel, rating_of.
  destruct (Qle_bool 80 _); [reflexivity|].
  destruct (Qle_bool 65 _); [reflexivity|].
  destruct (Qle_bool 45 _); reflexivity.
Qed.

(** ** Daylight model *)

(** X8. [computeDarkness] on a day of the table whose sunrise is not after
    its sunset, with [T] = 1800 seconds: more than [T] outside the span is
    deep night (1.0); the closed band of [T] outside either end, the ends
    included, is unlit twilight (0.3); inside the span, up to and including
    [T] from either end is lit twilight (0.3); the rest is daylight
    (0.05). *)
Theorem computeDarkness_bands (hourISO : string) (dailyList : list DayRow) (ht sr ss : Z)
  (Hday : day_known hourISO dailyList ht sr ss)
  (Hspan : (sr <= ss)%Z) :
  let T := 1800000%Z in
  ((ht < sr - T)%Z \/ (ss + T < ht)%Z ->
     computeDarkness hourISO dailyList = mkDaylight false 1.0) /\
  ((sr - T <= ht <= sr)%Z \/ (ss <= ht <= ss + T)%Z ->
     computeDarkness hourISO dailyList = mkDaylight false 0.3) /\
  ((sr < ht < ss)%Z -> (ht <= sr + T \/ ss - T <= ht)%Z ->
     computeDarkness hourISO dailyList = mkDaylight true 0.3) /\
  ((sr + T < ht < ss - T)%Z ->
     computeDarkness hourISO dailyList = mkDaylight true 0.05).
Proof.
  intro T; subst T.
  repeat split; intros; open_day Hday; zcases; reflexivity.
Qed.

Lemma find_day_missing (dateStr : string) (dailyList : list DayRow) :
  Forall (fun d => date d <> dateStr) dailyList -> find_day dateStr dailyList = None.
Proof.
  unfold find_day. induction 1 as [|d l Hd _ IH]; [reflexivity|]. cbn [find].
  destruct (String.eqb_spec (date d) dateStr); [contradiction | exact IH].
Qed.

(** X9. When the table has no row for the date of the hour, both models
    fail open, whatever the hour: daylight says lit with multiplier 1.0,
    darkness says unlit with multiplier 0.05. *)
Theorem missing_day_fails_open (hourISO : string) (dailyList : list DayRow)
  (Hmiss : Forall (fun d => date d <> slice0 10 hourISO) dailyList) :
  computeDaylight hourISO dailyList = mkDaylight true 1.0 /\
  computeDarkness hourISO dailyList = mkDaylight false 0.05.
Proof.
  unfold computeDaylight, computeDarkness.
  rewrite (find_day_missing _ _ Hmiss). split; reflexivity.
Qed.

Lemma unparseable_hour_light (hourISO : string) (dailyList : list DayRow) (day : DayRow) :
  find_day (slice0 10 hourISO) dailyList = Some day ->
  Date_getTime hourISO = None ->
  computeDaylight hourISO dailyList = mkDaylight false 0.3 /\
  computeDarkness hourISO dailyList = mkDaylight true 0.05.
Proof.
  intros Hday Hht. unfold computeDaylight, computeDarkness. rewrite Hday, Hht.
  unfold ms_ge, ms_gt, ms_le, ms_lt, ms_sub, ms_add, twilight.
  destruct (getTime_of (sunrise day)), (getTime_of (sunset day)); split; reflexivity.
Qed.

(** X10. An hour whose time does not parse, on a day of the table, is
    night for the daylight model (unlit, 0.3) and full daylight for the
    darkness model (lit, 0.05), whatever the sunrise and the sunset. *)
Theorem unparseable_hour (hourISO : string) (dailyList : list DayRow) (day : DayRow)
  (Hday : find_day (slice0 10 hourISO) dailyList = Some day)
  (Hht : Date_getTime hourISO = None) :
  computeDaylight hourISO dailyList = mkDaylight false 0.3 /\
  computeDarkness hourISO dailyList = mkDaylight true 0.05.
Proof. exact (unparseable_hour_light hourISO dailyList day Hday Hht). Qed.

Lemma light_factor_range (m : Mode) (t : string) (dailyList : list DayRow) :
  0 < dl_daylight_factor (light_for m t dailyList) <= 1.
Proof.
  unfold light_for, computeDaylight, computeDarkness.
  destruct (Mode_eqb m stargazing); destruct (find_day _ _);
    repeat match goal with
           | |- context [if ?c then _ else _] => destruct c
           end;
    cbn [dl_daylight_factor]; split; reflexivity || discriminate.
Qed.

(** X11. The multiplier of either model is always in (0,1]: whatever the
    hour and the table, the light classification never zeroes a score and
    never amplifies it. *)
Theorem daylight_factor_range (hourISO : string) (dailyList : list DayRow) :
  0 < dl_daylight_factor (computeDaylight hourISO dailyList) <= 1 /\
  0 < dl_daylight_factor (computeDarkness hourISO dailyList) <= 1.
Proof.
  split.
  - exact (light_factor_range running hourISO dailyList).
  - exact (light_factor_range stargazing hourISO dailyList).
Qed.

(** ** Forecast hour resolver *)

Lemma exact_slot_spec (targetHour : string) (ts : list string) (i0 : nat) :
  match exact_slot targetHour i0 ts with
  | Some i =>
      exists k t, i = (i0 + k)%nat /\ nth_error ts k = Some t /\
                  slice0 13 t = targetHour /\
                  forall j u, (j < k)%nat -> nth_error ts j = Some u ->
                              slice0 13 u <> targetHour
  | None => forall u, In u ts -> slice0 13 u <> targetHour
  end.
Proof.
  revert i0. induction ts as [|t ts IH]; intro i0; cbn [exact_slot].
  - intros u [].
  - destruct (String.eqb_spec (slice0 13 t) targetHour) as [E|E].
    + exists 0%nat, t. split; [lia|]. split; [reflexivity|]. split; [exact E|].
      intros j u Hj. lia.
    + specialize (IH (S i0)). destruct (exact_slot targetHour (S i0) ts) as [i|].
      * destruct IH as (k & u & -> & Hn & Hu & Hfirst).
        exists (S k), u. split; [lia|]. split; [exact Hn|]. split; [exact Hu|].
        intros j v Hj Hv. destruct j as [|j].
        -- injection Hv as <-. exact E.
        -- apply (Hfirst j v); [lia | exact Hv].
      * intros u [<-|Hin]; [exact E | apply IH, Hin].
Qed.

(** X12. The first loop of the resolver finds the first slot of the series
    whose time has the hour prefix sought, and finds none exactly when no
    slot has it. *)
Theorem exact_slot_first_match (targetHour : string) (ts : list string) :
  match exact_slot targetHour 0 ts with
  | Some i =>
      exists t, nth_error ts i = Some t /\ slice0 13 t = targetHour /\
                forall j u, (j < i)%nat -> nth_error ts j = Some u ->
                            slice0 13 u <> targetHour
  | None => forall u, In u ts -> slice0 13 u <> targetHour
  end.
Proof.
  pose proof (exact_slot_spec targetHour ts 0) as H.
  destruct (exact_slot targetHour 0 ts) as [i|]; [|exact H].
  destruct H as (k & t & -> & Hn & Ht & Hfirst). exists t. auto.
Qed.

Lemma nearest_upto_skip (target : Z) (all : list string) (n : nat) (t : string)
      (minDiff : option Z) (idx : option nat) :
  nth_error all n = Some t -> distance target t = None ->
  nearest_upto target all n minDiff idx -> nearest_upto target all (S n) minDiff idx.
Proof.
  intros Hnth Hd Hinv.
  destruct minDiff as [d|], idx as [i|]; try contradiction; cbn [nearest_upto] in *.
  - destruct Hinv as (Hi & Hex & Hmin). split; [lia|]. split; [exact Hex|].
    intros j u dj Hj Hu Hdj. destruct (Nat.eq_dec j n) as [->|Hne].
    + rewrite Hnth in Hu. injection Hu as <-. congruence.
    + apply (Hmin j u dj); [lia | exact Hu | exact Hdj].
  - intros j u Hj Hu. destruct (Nat.eq_dec j n) as [->|Hne].
    + rewrite Hnth in Hu. injection Hu as <-. exact Hd.
    + apply (Hinv j u); [lia | exact Hu].
Qed.

Lemma nearest_upto_keep (target : Z) (all : list string) (n : nat) (t : string)
      (d diff : Z) (i : nat) :
  nth_error all n = Some t -> distance target t = Some diff -> (d <= diff)%Z ->
  nearest_upto target all n (Some d) (Some i) ->
  nearest_upto target all (S n) (Some d) (Some i).
Proof.
  intros Hnth Hd Hle (Hi & Hex & Hmin). cbn [nearest_upto].
  split; [lia|]. split; [exact Hex|].
  intros j u dj Hj Hu Hdj. destruct (Nat.eq_dec j n) as [->|Hne].
  - rewrite Hnth in Hu. injection Hu as <-. rewrite Hd in Hdj. injection Hdj as <-.
    split; [exact Hle | lia].
  - apply (Hmin j u dj); [lia | exact Hu | exact Hdj].
Qed.

Lemma nearest_upto_take (target : Z) (all : list string) (n : nat) (t : string)
      (diff : Z) (minDiff : option Z) (idx : option nat) :
  nth_error all n = Some t -> distance target t = Some diff ->
  match minDiff with Some d => (diff < d)%Z | None => True end ->
  nearest_upto target all n minDiff idx ->
  nearest_upto target all (S n) (Some diff) (Some n).
Proof.
  intros Hnth Hd Hlt Hinv. cbn [nearest_upto].
  split; [lia|]. split; [exists t; split; assumption|].
  intros j u dj Hj Hu Hdj. destruct (Nat.eq_dec j n) as [->|Hne].
  - rewrite Hnth in Hu. injection Hu as <-. rewrite Hd in Hdj. injection Hdj as <-.
    split; lia.
  - destruct minDiff as [d|], idx as [i|]; try contradiction; cbn [nearest_upto] in Hinv.
    + destruct Hinv as (_ & _ & Hmin).
      destruct (Hmin j u dj) as [Hle _]; [lia | exact Hu | exact Hdj|]. split; lia.
    + rewrite (Hinv j u) in Hdj; [discriminate | lia | exact Hu].
Qed.

Lemma closest_slot_invariant (target : Z) (ts pre : list string) (all : list string)
      (minDiff : option Z) (idx : option nat) :
  all = pre ++ ts ->
  nearest_upto target all (List.length pre) minDiff idx ->
  exists minDiff', nearest_upto target all (List.length all) minDiff'
                                (closest_slot target (List.length pre) ts minDiff idx).
Proof.
  revert pre minDiff idx. induction ts as [|t ts IH]; intros pre minDiff idx Hall Hinv.
  - exists minDiff.
    assert (Hlen : List.length all = List.length pre) by (rewrite Hall, app_nil_r; reflexivity).
    rewrite Hlen. exact Hinv.
  - assert (Hnth : nth_error all (List.length pre) = Some t).
    { rewrite Hall, nth_error_app2, Nat.sub_diag by lia. reflexivity. }
    assert (Hnext : all = (pre ++ [t]) ++ ts) by (rewrite <- app_assoc; exact Hall).
    assert (Hlen : List.length (pre ++ [t]) = S (List.length pre))
      by (rewrite length_app; simpl; lia).
    cbn [closest_slot]. fold (distance target t).
    destruct (distance target t) as [diff|] eqn:Ed.
    + destruct minDiff as [d|].
      * destruct (Z.ltb_spec diff d) as [Hlt|Hge].
        -- specialize (IH (pre ++ [t]) (Some diff) (Some (List.length pre)) Hnext).
           rewrite Hlen in IH. apply IH.
           apply (nearest_upto_take target all _ t diff (Some d) idx); assumption.
        -- specialize (IH (pre ++ [t]) (Some d) idx Hnext).
           rewrite Hlen in IH. apply IH.
           destruct idx as [i|]; [|contradiction].
           apply (nearest_upto_keep target all _ t d diff i); assumption.
      * specialize (IH (pre ++ [t]) (Some diff) (Some (List.length pre)) Hnext).
        rewrite Hlen in IH. apply IH.
        apply (nearest_upto_take target all _ t diff None idx); trivial.
    + specialize (IH (pre ++ [t]) minDiff idx Hnext).
      rewrite Hlen in IH. apply IH.
      apply (nearest_upto_skip target all _ t); assumption.
Qed.

(** X13. The second loop of the resolver finds the slot whose time is
    nearest to the target in absolute milliseconds, the first one of them in
    series order, times that do not parse being passed over; it finds none
    exactly when no time of the series parses. *)
Theorem closest_slot_nearest (target : Z) (ts : list string) :
  match closest_slot target 0 ts None None with
  | Some i =>
      exists t d, nth_error ts i = Some t /\ distance target t = Some d /\
                  forall j u dj, nth_error ts j = Some u -> distance target u = Some dj ->
                                 (d <= dj)%Z /\ ((j < i)%nat -> (d < dj)%Z)
  | None => forall u, In u ts -> Date_getTime u = None
  end.
Proof.
  destruct (closest_slot_invariant target ts [] ts None None eq_refl) as [md H].
  { cbn [nearest_upto]. intros j u Hj. simpl in Hj. lia. }
  cbn [List.length] in H.
  destruct (closest_slot target 0 ts None None) as [i|].
  - destruct md as [d|]; [|contradiction].
    destruct H as (Hi & (t & Ht & Hd) & Hmin).
    exists t, d. split; [exact Ht|]. split; [exact Hd|].
    intros j u dj Hu Hdj. apply (Hmin j u dj); trivial.
    apply nth_error_Some. congruence.
  - destruct md as [d|]; [contradiction|]. cbn [nearest_upto] in H.
    intros u Hin. apply In_nth_error in Hin as [j Hj].
    assert (Hlt : (j < List.length ts)%nat) by (apply nth_error_Some; congruence).
    specialize (H j u Hlt Hj). unfold distance, ms_abs, ms_sub in H.
    destruct (Date_getTime u); [discriminate | reflexivity].
Qed.

Lemma computeScore_scaled (h : HourlyData) (m : Mode) :
  0 <= daylight_factor h <= 1 ->
  exists s, computeScore h m = Ok s /\ in_range (score s).
Proof.
  intro Hf. destruct (sub_scores_ok h m) as (sub & E & _ & Hsum).
  exists (scored h sub (weights_of m)). rewrite computeScore_unfold, E.
  split; [reflexivity|].
  exact (round_tenth_in_range _ (scaled_in_range _ _ Hsum Hf)).
Qed.

Lemma slot_score_in_range (forecast : OpenMeteoForecast) (m : Mode) (i : nat) (t : string) :
  exists s, computeScore (hourData_at (hourly forecast) i t
                                      (light_for m t (dailyList_of forecast))) m = Ok s /\
            score s = score_at forecast m i t /\ in_range (score_at forecast m i t).
Proof.
  destruct (computeScore_scaled
              (hourData_at (hourly forecast) i t (light_for m t (dailyList_of forecast))) m)
    as (s & Hs & Hr).
  { cbn [daylight_factor hourData_at].
    destruct (light_factor_range m t (dailyList_of forecast)) as [H0 H1].
    split; [apply Qlt_le_weak, H0 | exact H1]. }
  exists s. unfold score_at. rewrite Hs.
  split; [reflexivity|]. split; [reflexivity | exact Hr].
Qed.

Lemma computeScoreForHour_resolved (forecast : OpenMeteoForecast) (targetTime : string)
  (m : Mode) (target : Z) :
  Date_getTime targetTime = Some target ->
  exists s,
    computeScoreForHour forecast targetTime m = Ok s /\
    0 <= s <= 100 /\
    (s = 50 \/
     exists i t, nth_error (h_time (hourly forecast)) i = Some t /\
                 s = score_at forecast m i t).
Proof.
  intro Htarget.
  unfold computeScoreForHour. rewrite Htarget.
  set (times := h_time (hourly forecast)).
  set (targetHour := slice0 13 (Date_toISOString target)).
  assert (Hidx : match (match exact_slot targetHour 0 times with
                        | Some i => Some i
                        | None => closest_slot target 0 times None None
                        end) with
                 | Some i => exists t, nth_error times i = Some t
                 | None => True
                 end).
  { pose proof (exact_slot_spec targetHour times 0) as He.
    destruct (exact_slot targetHour 0 times) as [i|].
    - destruct He as (k & t & -> & Hn & _). exists t. exact Hn.
    - destruct (closest_slot_invariant target times [] times None None eq_refl) as [md H].
      { cbn [nearest_upto]. intros j u Hj. simpl in Hj. lia. }
      cbn [List.length] in H.
      destruct (closest_slot target 0 times None None) as [i|]; [|exact I].
      destruct md as [d|]; [|contradiction].
      destruct H as (_ & (t & Ht & _) & _). exists t. exact Ht. }
  destruct (match exact_slot targetHour 0 times with
            | Some i => Some i
            | None => closest_slot target 0 times None None
            end) as [i|].
  - destruct Hidx as [t Ht]. fold times. rewrite Ht.
    destruct (slot_score_in_range forecast m i t) as (s & Hs & Hsc & Hr).
    rewrite Hs. cbn [bind]. exists (score s). split; [reflexivity|].
    rewrite Hsc. split; [exact Hr|]. right. exists i, t. split; [exact Ht | reflexivity].
  - exists 50. split; [reflexivity|]. split; [split; discriminate|]. left; reflexivity.
Qed.


(** X14. For a target that is a timestamp, [computeScoreForHour] never
    throws, whatever the forecast (arrays of unequal lengths and times that
    do not parse included), and its result is in [0,100]: the neutral 50
    when no slot is resolved, otherwise the score of a slot of the series. *)
Theorem computeScoreForHour_in_range (forecast : OpenMeteoForecast) (targetTime : string)
  (m : Mode) (target : Z)
  (Htarget : Date_getTime targetTime = Some target) :
  exists s,
    computeScoreForHour forecast targetTime m = Ok s /\
    0 <= s <= 100 /\
    (s = 50 \/
     exists i t, nth_error (h_time (hourly forecast)) i = Some t /\
                 s = score_at forecast m i t).
Proof.
  exact (computeScoreForHour_resolved forecast targetTime m target Htarget).
Qed.

(** ** Alternative-slot search *)

(** X15. [findBestAlternative] never throws, whatever the forecast, the
    target and the clock, and the score of a slot it returns is in
    [0,100]. *)
Theorem findBestAlternative_returns (forecast : OpenMeteoForecast) (targetTime : string)
  (m : Mode) (now : Z) :
  exists r,
    findBestAlternative forecast targetTime m now = Ok r /\
    forall slot, r = Some slot -> 0 <= slot_score slot <= 100.
Proof.
  destruct (findBestAlternative_passing forecast targetTime m now) as (r & Hr & Hbest).
  exists r. split; [exact Hr|].
  intros slot ->. cbn [best_upto] in Hbest.
  destruct Hbest as (i & t & _ & _ & -> & _). cbn [slot_score].
  destruct (slot_score_in_range forecast m i t) as (_ & _ & _ & Hrange). exact Hrange.
Qed.

Lemma returned_slot_passes (forecast : OpenMeteoForecast) (targetTime : string)
      (m : Mode) (now : Z) (slot : Slot) :
  findBestAlternative forecast targetTime m now = Ok (Some slot) ->
  passes forecast targetTime m now (slot_time slot) = true.
Proof.
  intro Hret.
  destruct (findBestAlternative_passing forecast targetTime m now) as (r & Hr & Hbest).
  rewrite Hret in Hr. injection Hr as <-. cbn [best_upto] in Hbest.
  destruct Hbest as (i & t & _ & [_ Hp] & -> & _). exact Hp.
Qed.

(** X16. A slot that [findBestAlternative] returns has the date prefix of
    the target, a light classification that suits the mode (lit, or unlit
    for stargazing), and, when its time parses, lies strictly after the
    current time and, the target parsing too, at most four hours from the
    target and not at it. *)
Theorem findBestAlternative_in_window (forecast : OpenMeteoForecast) (targetTime : string)
  (m : Mode) (now : Z) (slot : Slot)
  (Hret : findBestAlternative forecast targetTime m now = Ok (Some slot)) :
  slice0 10 (slot_time slot) = slice0 10 targetTime /\
  dl_is_daylight (light_for m (slot_time slot) (dailyList_of forecast))
  = negb (Mode_eqb m stargazing) /\
  forall tMs, Date_getTime (slot_time slot) = Some tMs ->
    (now < tMs)%Z /\
    forall target, Date_getTime targetTime = Some target ->
      (Z.abs (tMs - target) <= 4 * 60 * 60 * 1000)%Z /\ tMs <> target.
Proof.
  pose proof (returned_slot_passes _ _ _ _ _ Hret) as Hp.
  unfold passes in Hp. cbv zeta in Hp.
  repeat (apply andb_true_iff in Hp; destruct Hp as [Hp ?]).
  split; [apply String.eqb_eq, Hp|]. split.
  - destruct (Mode_eqb m stargazing), (dl_is_daylight _); cbn in *; congruence.
  - intros tMs Ht. rewrite Ht in *.
    unfold ms_le, ms_gt, ms_lt, ms_eq, ms_abs, ms_sub, windowMs, option_map in *.
    split.
    + destruct (Z.leb_spec tMs now); [discriminate | lia].
    + intros target Htg. rewrite Htg in *. split.
      * destruct (Z.ltb_spec (4 * 60 * 60 * 1000) (Z.abs (tMs - target)));
          [discriminate | lia].
      * destruct (Z.eqb_spec tMs target); [discriminate | assumption].
Qed.

(** X17. [findBestAlternative] never returns a slot whose time does not
    parse when the daily table has a row for the slot's date prefix: such a
    slot is unlit for the daylight model and lit for the darkness model, so
    it suits no mode. *)
Theorem findBestAlternative_parsed_slot (forecast : OpenMeteoForecast) (targetTime : string)
  (m : Mode) (now : Z) (slot : Slot) (day : DayRow)
  (Hret : findBestAlternative forecast targetTime m now = Ok (Some slot))
  (Hday : find_day (slice0 10 (slot_time slot)) (dailyList_of forecast) = Some day) :
  Date_getTime (slot_time slot) <> None.
Proof.
  intro Hnan.
  pose proof (returned_slot_passes _ _ _ _ _ Hret) as Hp.
  destruct (unparseable_hour_light _ _ _ Hday Hnan) as [Hlight Hdark].
  unfold passes in Hp. cbv zeta in Hp. unfold light_for in Hp.
  repeat (apply andb_true_iff in Hp; destruct Hp as [Hp ?]).
  destruct (Mode_eqb m stargazing).
  - rewrite Hdark in *. discriminate.
  - rewrite Hlight in *. discriminate.
Qed.

(** ** Monitoring state machine *)

Lemma wakes_empty (ws : list World) : wakes empty_storage ws = (empty_storage, []).
Proof.
  induction ws as [|w ws IH]; [reflexivity|].
  change (wakes empty_storage (w :: ws))
    with (let '(st2, e2) := wakes empty_storage ws in (st2, @nil Effect ++ e2)).
  rewrite IH. reflexivity.
Qed.

(** X18. A wake after the scheduled time deletes the record, arms no
    timer and notifies nobody; from then on every wake does nothing, and
    the status query answers 404. *)
Theorem wake_after_event_terminates (st : Storage) (w : World) (ws : list World)
  (ev : EventRow) (eventTime : Z)
  (Hev : getEvent st = Some ev)
  (Htime : Date_getTime (scheduled_time ev) = Some eventTime)
  (Hpast : (eventTime < w_now w)%Z) :
  wakes st (w :: ws) = (empty_storage, []) /\
  handleStatus (fst (wakes st (w :: ws))) = TextResponse 404 "No event".
Proof.
  assert (Hwake : wake st w = (empty_storage, [])).
  { unfold wake, alarm. unfold getEvent in *. cbn [event].
    destruct (event st) as [|ev' rows]; [discriminate|]. injection Hev as ->.
    rewrite Htime. unfold ms_gt, ms_lt.
    destruct (Z.ltb_spec eventTime (w_now w)); [reflexivity | lia]. }
  assert (Hall : wakes st (w :: ws) = (empty_storage, [])).
  { cbn [wakes]. rewrite Hwake, wakes_empty. reflexivity. }
  split; [exact Hall|]. rewrite Hall. reflexivity.
Qed.

(** X19. A wake changes nothing in the record but the alert flag: it leaves
    no rows (the record is deleted), or the rows as they were with no
    notification delivered, or the rows with the flag set and exactly one
    notification delivered.  A notification that fails is not recorded as
    sent. *)
Theorem wake_outcomes (st : Storage) (w : World) :
  (event (fst (wake st w)) = [] /\ snd (wake st w) = []) \/
  (event (fst (wake st w)) = event st /\ deliveries (snd (wake st w)) = []) \/
  (event (fst (wake st w)) = set_alert_sent (event st) /\
   List.length (deliveries (snd (wake st w))) = 1%nat).
Proof.
  destruct st as [rows p]. unfold wake, alarm, getEvent. cbn [event pending_alarm].
  destruct rows as [|ev rows]; [left; split; reflexivity|].
  destruct (ms_gt _ _); [left; split; reflexivity|].
  destruct (alarm_check_deliveries (ev :: rows) ev w) as [[Hd Hrows]|[Hd Hrows]];
    destruct (alarm_check (ev :: rows) ev w) as [rows' eff]; cbn [fst snd] in *;
    subst rows'; destruct (ms_lt _ _); cbn [fst snd event]; auto.
Qed.

Lemma alarm_check_no_key (rows : list EventRow) (ev : EventRow) (w : World) :
  truthy (resend_api_key ev) = false ->
  fst (alarm_check rows ev w) = rows /\ emails (snd (alarm_check rows ev w)) = [].
Proof.
  intro Hkey. unfold alarm_check.
  destruct (w_fetchForecast w) as [forecast|e]; [|split; reflexivity].
  destruct (computeScoreForHour _ _ _) as [cur|e]; [|split; reflexivity].
  rewrite Hkey, andb_false_r. split; reflexivity.
Qed.

Lemma wake_no_key (st : Storage) (w : World) (ev : EventRow) :
  getEvent st = Some ev -> truthy (resend_api_key ev) = false ->
  emails (snd (wake st w)) = [] /\
  (getEvent (fst (wake st w)) = Some ev \/ fst (wake st w) = empty_storage).
Proof.
  intros Hev Hkey. destruct st as [rows p].
  unfold wake, alarm, getEvent in *. cbn [event pending_alarm] in *.
  destruct rows as [|ev' rows]; [discriminate|]. injection Hev as ->.
  destruct (ms_gt _ _); [split; [reflexivity | right; reflexivity]|].
  destruct (alarm_check_no_key (ev :: rows) ev w Hkey) as [Hrows Hmail].
  destruct (alarm_check (ev :: rows) ev w) as [rows' eff]. cbn [fst snd] in *. subst rows'.
  destruct (ms_lt _ _); cbn [fst snd event]; (split; [exact Hmail | left; reflexivity]).
Qed.

(** X20. A record without a notification credential is never notified
    about, however its score drops and however often it is woken. *)
Theorem no_credential_no_notification (st : Storage) (ws : list World) (ev : EventRow)
  (Hev : getEvent st = Some ev)
  (Hkey : resend_api_key ev = EmptyString) :
  emails (snd (wakes st ws)) = [].
Proof.
  assert (Hk : truthy (resend_api_key ev) = false) by (rewrite Hkey; reflexivity).
  clear Hkey. revert st Hev. induction ws as [|w ws IH]; intros st Hev; [reflexivity|].
  cbn [wakes]. destruct (wake_no_key st w ev Hev Hk) as [Hmail Hnext].
  destruct (wake st w) as [st1 e1]. cbn [fst snd] in *.
  destruct Hnext as [Hsame| ->].
  - specialize (IH st1 Hsame). destruct (wakes st1 ws) as [st2 e2]. cbn [snd] in *.
    rewrite emails_app, Hmail, IH. reflexivity.
  - rewrite wakes_empty. cbv beta iota. cbn [snd].
    rewrite emails_app, Hmail. reflexivity.
Qed.

(** X21. A wake before the scheduled time that finds the score less than
    15 points below the initial score notifies nobody and leaves the alert
    flag as it was. *)
Theorem small_drop_no_notification (st : Storage) (w : World) (ev : EventRow)
  (forecast : OpenMeteoForecast) (cur : Q) (eventTime : Z)
  (Hev : getEvent st = Some ev)
  (Htime : Date_getTime (scheduled_time ev) = Some eventTime)
  (Hnow : (w_now w <= eventTime)%Z)
  (Hfetch : w_fetchForecast w = Ok forecast)
  (Hscore : computeScoreForHour forecast (scheduled_time ev) (mode ev) = Ok cur)
  (Hdrop : initial_score ev - cur < 15) :
  emails (snd (wake st w)) = [] /\
  alert_flag (fst (wake st w)) = alert_flag st.
Proof.
  destruct st as [rows p].
  unfold alert_flag, wake, alarm, getEvent in *. cbn [event pending_alarm] in *.
  destruct rows as [|ev' rows]; [discriminate|]. injection Hev as ->.
  rewrite Htime. unfold alarm_check. rewrite Hfetch, Hscore.
  assert (Hno : Qle_bool 15 (initial_score ev - cur) = false).
  { destruct (Qle_bool 15 (initial_score ev - cur)) eqn:E; [|reflexivity].
    apply Qle_bool_iff in E. lra. }
  rewrite Hno. cbn [andb].
  unfold ms_gt, ms_lt.
  destruct (Z.ltb_spec eventTime (w_now w)); [lia|].
  destruct (w_now w + 30 * 60 * 1000 <? eventTime)%Z; split; reflexivity.
Qed.

Lemma handleInitialize_valid (st : Storage) (body : InitBody) (now eventTime : Z) :
  Date_getTime (b_scheduledTime body) = Some eventTime ->
  handleInitialize st body now =
  (mkStorage (insert_or_replace (row_of_body body) (event st))
             (Some (Z.min (now + 60 * 60 * 1000)
                          (Z.max (eventTime - 2 * 60 * 60 * 1000) (now + 60 * 1000)))),
   Ok tt).
Proof. intro Htime. unfold handleInitialize. rewrite Htime. reflexivity. Qed.

(** X22. [initialize] with a scheduled time that is a timestamp arms the
    first wake no sooner than one minute and no later than one hour from
    now, and at two hours before the event when that falls in between. *)
Theorem first_alarm_bounds (st : Storage) (body : InitBody) (now eventTime : Z)
  (Htime : Date_getTime (b_scheduledTime body) = Some eventTime) :
  exists at_,
    snd (handleInitialize st body now) = Ok tt /\
    pending_alarm (fst (handleInitialize st body now)) = Some at_ /\
    (now + 60 * 1000 <= at_ <= now + 60 * 60 * 1000)%Z /\
    ((now + 60 * 1000 <= eventTime - 2 * 60 * 60 * 1000 <= now + 60 * 60 * 1000)%Z ->
     at_ = (eventTime - 2 * 60 * 60 * 1000)%Z).
Proof.
  rewrite (handleInitialize_valid st body now eventTime Htime). cbn [fst snd pending_alarm].
  eexists. split; [reflexivity|]. split; [reflexivity|]. split; lia.
Qed.

Lemma insert_only_row (body : InitBody) (rows : list EventRow) :
  (forall r, In r rows -> id r = b_id body) ->
  insert_or_replace (row_of_body body) rows = [row_of_body body].
Proof.
  intro Hown. unfold insert_or_replace. rewrite filter_none; [reflexivity|].
  intros r Hr. rewrite (Hown r Hr). cbn [id row_of_body].
  rewrite String.eqb_refl. reflexivity.
Qed.

Lemma initialize_route (st : Storage) (body : InitBody) (now eventTime : Z) :
  (forall r, In r (event st) -> id r = b_id body) ->
  Date_getTime (b_scheduledTime body) = Some eventTime ->
  exists at_,
    (now + 60 * 1000 <= at_ <= now + 60 * 60 * 1000)%Z /\
    ScheduledRun_fetch st (mkRequest "/initialize" "POST" (Some body)) now
    = (mkStorage [row_of_body body] (Some at_), Responds InitializedJson).
Proof.
  intros Hown Htime. unfold ScheduledRun_fetch. cbn [pathname method json].
  cbn [String.eqb Ascii.eqb Bool.eqb andb].
  rewrite (handleInitialize_valid st body now eventTime Htime), (insert_only_row body _ Hown).
  eexists. split; [|reflexivity]. lia.
Qed.

(** X23. In an object that holds no record of another id, a [POST
    /initialize] whose scheduled time is a timestamp answers 200, and the
    [GET /status] that follows answers the submitted fields with
    [alertSent] false and leaves the storage as it is. *)
Theorem initialize_then_status (st : Storage) (body : InitBody) (now later eventTime : Z)
  (Hown : forall r, In r (event st) -> id r = b_id body)
  (Htime : Date_getTime (b_scheduledTime body) = Some eventTime) :
  exists st',
    ScheduledRun_fetch st (mkRequest "/initialize" "POST" (Some body)) now
    = (st', Responds InitializedJson) /\
    ScheduledRun_fetch st' (mkRequest "/status" "GET" None) later
    = (st', Responds (StatusResponse (status_of_body body))).
Proof.
  destruct (initialize_route st body now eventTime Hown Htime) as (at_ & _ & Hinit).
  eexists. split; [exact Hinit|]. reflexivity.
Qed.

(** ** The worker *)

Lemma truthy_empty (s : string) : truthy s = false <-> s = EmptyString.
Proof. destruct s; split; intro H; (reflexivity || discriminate). Qed.

(** X24. [handleSchedule] answers 400 and touches no object when the mail
    address, the scheduled time or the time zone is empty, and also when
    the latitude or the longitude is 0. *)
Theorem handleSchedule_missing_fields (env : Env) (body : ScheduleBody) (w : ScheduleWorld)
  (Hmissing : sb_email body = EmptyString \/ sb_scheduledTime body = EmptyString \/
              sb_lat body == 0 \/ sb_lon body == 0 \/ sb_tz body = EmptyString) :
  handleSchedule env body w = (SCHEDULED_RUN env, MissingFields).
Proof.
  unfold handleSchedule, falsy_number. cbv zeta.
  assert (Hcheck : negb (truthy (sb_email body)) || negb (truthy (sb_scheduledTime body))
                   || Qeq_bool (sb_lat body) 0 || Qeq_bool (sb_lon body) 0
                   || negb (truthy (sb_tz body)) = true).
  { destruct Hmissing as [H|[H|[H|[H|H]]]].
    - rewrite H. reflexivity.
    - rewrite H. cbn. rewrite orb_true_r. reflexivity.
    - apply Qeq_bool_iff in H. rewrite H. rewrite orb_true_r. reflexivity.
    - apply Qeq_bool_iff in H. rewrite H. rewrite !orb_true_r. reflexivity.
    - rewrite H. cbn. rewrite !orb_true_r. reflexivity. }
  rewrite Hcheck. reflexivity.
Qed.

Lemma required_fields_check (body : ScheduleBody) :
  has_required_fields body = true ->
  negb (truthy (sb_email body)) || negb (truthy (sb_scheduledTime body))
  || falsy_number (sb_lat body) || falsy_number (sb_lon body)
  || negb (truthy (sb_tz body)) = false.
Proof.
  unfold has_required_fields. intro H.
  repeat (apply andb_true_iff in H; destruct H as [H ?]).
  repeat match goal with
         | Hb : negb _ = true |- _ => apply negb_true_iff in Hb
         end.
  repeat match goal with
         | Hb : _ = _ |- _ => rewrite Hb
         end.
  reflexivity.
Qed.

(** X25. When the forecast cannot be fetched, or the scheduled time is not
    a timestamp, [handleSchedule] answers 500 and creates no object. *)
Theorem handleSchedule_failure (env : Env) (body : ScheduleBody) (w : ScheduleWorld)
  (Hfields : has_required_fields body = true)
  (Hfail : (exists e, sw_fetchForecast w = Throw e) \/
           Date_getTime (sb_scheduledTime body) = None) :
  exists t, handleSchedule env body w = (SCHEDULED_RUN env, Failed t).
Proof.
  unfold handleSchedule. cbv zeta. rewrite (required_fields_check body Hfields).
  destruct Hfail as [[e He]|Hnan].
  - rewrite He. eexists; reflexivity.
  - destruct (sw_fetchForecast w) as [forecast|e]; [|eexists; reflexivity].
    rewrite (computeScoreForHour_invalid_target _ _ _ Hnan). eexists; reflexivity.
Qed.




(** X27. The status route of the worker answers 404 'Event not found' for
    an id whose object holds no record: one that was never scheduled, or
    one whose record a wake after the event has deleted. *)
Theorem handleGetStatus_not_found (i : string) (env : Env)
  (Hnone : event (SCHEDULED_RUN env i) = []) :
  handleGetStatus i env = EventNotFound.
Proof.
  unfold handleGetStatus, ScheduledRun_fetch, handleStatus, getEvent.
  cbn [pathname method json]. rewrite Hnone. reflexivity.
Qed.

(** ** Further compositions *)

(** X28. A wake before the scheduled time that finds the score more than
    15 points below the initial score, with the flag clear and a credential
    present, sends one notification carrying the record's fields, both
    scores and the alternative found; when the send returns the flag of the
    record is set, and when it throws the error is logged and the record is
    left as it was, so that a later wake tries again.  The initial score is
    a whole number of tenths, as the worker stores it, and so is the current
    one: a drop above 15 is one of 15.1 at least, which the subtraction of
    doubles cannot bring under the threshold.  A drop of exactly 15 is left
    out. *)
Theorem wake_notification_attempt (st : Storage) (w : World) (ev : EventRow)
  (forecast : OpenMeteoForecast) (eventTime : Z) (cur : Q) (alt : option Slot)
  (Hev : getEvent st = Some ev)
  (Htime : Date_getTime (scheduled_time ev) = Some eventTime)
  (Hnow : (w_now w <= eventTime)%Z)
  (Hfetch : w_fetchForecast w = Ok forecast)
  (Hscore : computeScoreForHour forecast (scheduled_time ev) (mode ev) = Ok cur)
  (Htenths : exists k : Z, initial_score ev == inject_Z k / 10)
  (Hdrop : 15 < initial_score ev - cur)
  (Hflag : alert_sent ev = 0%Z)
  (Hkey : truthy (resend_api_key ev) = true)
  (Halt : findBestAlternative forecast (scheduled_time ev) (mode ev) (w_now_search w)
          = Ok alt) :
  match w_send w (notification_of ev cur alt) (resend_api_key ev) with
  | Ok _ =>
      snd (wake st w) = [Email (notification_of ev cur alt) (resend_api_key ev) true] /\
      event (fst (wake st w)) = set_alert_sent (event st)
  | Throw e =>
      snd (wake st w) = [Email (notification_of ev cur alt) (resend_api_key ev) false;
                         ConsoleError e] /\
      event (fst (wake st w)) = event st
  end.
Proof.
  destruct st as [rows p].
  unfold wake, alarm, getEvent in *. cbn [event pending_alarm] in *.
  destruct rows as [|ev' rows]; [discriminate|]. injection Hev as ->.
  rewrite Htime. unfold ms_gt, ms_lt.
  destruct (Z.ltb_spec eventTime (w_now w)); [lia|].
  unfold alarm_check. rewrite Hfetch, Hscore.
  apply Qlt_le_weak, Qle_bool_iff in Hdrop. rewrite Hdrop, Hflag, Hkey. cbn [andb Z.eqb].
  rewrite Halt. fold (notification_of ev cur alt).
  destruct (w_send w (notification_of ev cur alt) (resend_api_key ev)) as [u|e];
    destruct (w_now w + 30 * 60 * 1000 <? eventTime)%Z; split; reflexivity.
Qed.

(** X29. When the target is a timestamp and no time of the series either
    has its hour prefix or parses, [computeScoreForHour] returns the
    neutral 50, as it does on an empty series. *)
Theorem computeScoreForHour_nothing_resolved (forecast : OpenMeteoForecast)
  (targetTime : string) (m : Mode) (target : Z)
  (Htarget : Date_getTime targetTime = Some target)
  (Hnone : Forall (fun t => slice0 13 t <> slice0 13 (Date_toISOString target) /\
                            Date_getTime t = None)
                  (h_time (hourly forecast))) :
  computeScoreForHour forecast targetTime m = Ok 50.
Proof.
  unfold computeScoreForHour. rewrite Htarget. cbv zeta.
  rewrite Forall_forall in Hnone.
  pose proof (exact_slot_spec (slice0 13 (Date_toISOString target))
                              (h_time (hourly forecast)) 0) as He.
  destruct (exact_slot _ 0 _) as [i|].
  - destruct He as (k & t & _ & Hn & Ht & _).
    destruct (Hnone t (nth_error_In _ _ Hn)) as [Hne _]. contradiction.
  - destruct (closest_slot_invariant target (h_time (hourly forecast)) []
                                     (h_time (hourly forecast)) None None eq_refl)
      as [md H].
    { cbn [nearest_upto]. intros j u Hj. simpl in Hj. lia. }
    cbn [List.length] in H.
    destruct (closest_slot target 0 (h_time (hourly forecast)) None None) as [i|];
      [|reflexivity].
    destruct md as [d|]; [|contradiction].
    destruct H as (_ & (t & Ht & Hd) & _).
    destruct (Hnone t (nth_error_In _ _ Ht)) as [_ Hnan].
    unfold distance in Hd. rewrite Hnan in Hd. discriminate.
Qed.

(** X30. When every slot of the series is at or before the current time,
    [findBestAlternative] returns none: it proposes no slot in the past. *)
Theorem findBestAlternative_none_in_past (forecast : OpenMeteoForecast)
  (targetTime : string) (m : Mode) (now : Z)
  (Hpast : Forall (fun t => exists tMs, Date_getTime t = Some tMs /\ (tMs <= now)%Z)
                  (h_time (hourly forecast))) :
  findBestAlternative forecast targetTime m now = Ok None.
Proof.
  destruct (findBestAlternative_passing forecast targetTime m now) as (r & Hr & Hbest).
  destruct r as [slot|]; [exfalso|exact Hr].
  cbn [best_upto] in Hbest. destruct Hbest as (i & t & _ & [Hn Hp] & _).
  rewrite Forall_forall in Hpast.
  destruct (Hpast t (nth_error_In _ _ Hn)) as (tMs & Ht & Hle).
  unfold passes in Hp. cbv zeta in Hp. rewrite Ht in Hp. unfold ms_le in Hp.
  apply Z.leb_le in Hle. rewrite Hle in Hp.
  cbn [negb] in Hp. rewrite !andb_false_r in Hp. cbn [andb] in Hp. discriminate.
Qed.

End FairWeather.

(** * The properties on the sample data, under the UTC runtime *)

Local Open Scope string_scope.

(** Two breakpoints at the same input, in ascending order: at that input
    the table's last output is 9 and [interpolate] returns the first, 1. *)
Lemma interpolate_equal_inputs_first_output :
  sorted_by_input [(5, 1); (5, 9)] /\
  fst (last [(5, 1); (5, 9)] (5, 1)) <= 5 /\
  interpolate (Some 5) [(5, 1); (5, 9)] = Ok 1 /\
  interpolate (Some 5) [(5, 1); (5, 9)] <> Ok (snd (last [(5, 1); (5, 9)] (5, 1))).
Proof.
  split.
  { unfold sorted_by_input. repeat (constructor; [|repeat constructor; discriminate]).
    constructor. }
  split; [discriminate|]. split; [reflexivity|].
  intro H. vm_compute in H. discriminate H.
Qed.

(** The curve of [scoreUV] at a UV index of 0, its first breakpoint, and
    of 12, past its last one. *)
Lemma interpolate_clamps_witness :
  0 <= 0 /\
  fst (last [(0, 100); (2, 100); (5, 75); (7, 45); (8, 15); (11, 0)] (0, 100)) <= 12 /\
  0 < 12 /\
  interpolate (Some 0) [(0, 100); (2, 100); (5, 75); (7, 45); (8, 15); (11, 0)] = Ok 100 /\
  interpolate (Some 12) [(0, 100); (2, 100); (5, 75); (7, 45); (8, 15); (11, 0)] = Ok 0.
Proof.
  assert (L : 0 <= 0) by discriminate.
  assert (H : fst (last [(0, 100); (2, 100); (5, 75); (7, 45); (8, 15); (11, 0)] (0, 100)) <= 12)
    by discriminate.
  assert (A : 0 < 12) by reflexivity.
  split; [exact L|]. split; [exact H|]. split; [exact A|].
  exact (interpolate_clamps 0 100 [(2, 100); (5, 75); (7, 45); (8, 15); (11, 0)] 0 12 L H A).
Defined.

(** The baseline hour under running. *)
Lemma computeScore_in_range_witness :
  0 <= daylight_factor makeHour <= 1 /\
  exists sub s,
    sub_scores makeHour running = Ok sub /\
    computeScore makeHour running = Ok s /\
    map fst sub = map fst (weights_of running) /\
    Forall (fun kv => 0 <= snd kv <= 100) sub /\
    0 <= score s <= 100 /\
    (exists k : Z, score s == inject_Z k / 10) /\
    Qabs (score s - weighted_total sub (weights_of running) * daylight_factor makeHour)
    <= 0.05 + rounding_slack.
Proof.
  assert (H : 0 <= daylight_factor makeHour <= 1) by (split; discriminate).
  split; [exact H|].
  exact (computeScore_in_range makeHour running H).
Defined.

(** The hour at the sunrise instant of the sample day: in the claim's
    words the darkness model would report it lit; it does not. *)
Lemma sunrise_instant_darkness_unlit :
  ~ (computeDaylight UTC.getTime "2025-06-15T06:00" DAILY = mkDaylight true 0.6 /\
     computeDarkness UTC.getTime "2025-06-15T06:00" DAILY = mkDaylight true 0.3).
Proof.
  intros [_ H]. vm_compute in H. discriminate H.
Qed.

Lemma sunrise_instant_witness :
  day_known UTC.getTime "2025-06-15T06:00" DAILY 1749967200000 1749967200000 1750019400000 /\
  (1749967200000 <= 1750019400000)%Z /\
  computeDaylight UTC.getTime "2025-06-15T06:00" DAILY = mkDaylight true 0.6 /\
  computeDarkness UTC.getTime "2025-06-15T06:00" DAILY = mkDaylight false 0.3.
Proof.
  assert (H : day_known UTC.getTime "2025-06-15T06:00" DAILY
                        1749967200000 1749967200000 1750019400000).
  { exists (mkDayRow "2025-06-15" (Some "2025-06-15T06:00") (Some "2025-06-15T20:30")).
    repeat split; reflexivity. }
  assert (L : (1749967200000 <= 1750019400000)%Z) by lia.
  split; [exact H|]. split; [exact L|].
  exact (sunrise_instant UTC.getTime "2025-06-15T06:00" DAILY _ _ H L).
Defined.

(** The hour exactly 1800 seconds after sunrise, sunset fourteen hours
    away: the multiplier is 1.0, not the twilight 0.6. *)
Lemma half_hour_after_sunrise_full_daylight :
  UTC.getTime "2025-06-15T06:30" = Some (1749967200000 + 1800 * 1000)%Z /\
  computeDaylight UTC.getTime "2025-06-15T06:30" DAILY = mkDaylight true 1.0 /\
  computeDaylight UTC.getTime "2025-06-15T06:30" DAILY <> mkDaylight true 0.6.
Proof.
  split; [reflexivity|]. split; [reflexivity|].
  intro H. vm_compute in H. discriminate H.
Qed.

Lemma computeDaylight_bands_witness :
  day_known UTC.getTime "2025-06-15T06:30" DAILY 1749969000000 1749967200000 1750019400000 /\
  (1749967200000 <= 1750019400000)%Z /\
  (1749967200000 + 1800000 <= 1749969000000 <= 1750019400000 - 1800000)%Z /\
  computeDaylight UTC.getTime "2025-06-15T06:30" DAILY = mkDaylight true 1.0.
Proof.
  assert (H : day_known UTC.getTime "2025-06-15T06:30" DAILY
                        1749969000000 1749967200000 1750019400000).
  { exists (mkDayRow "2025-06-15" (Some "2025-06-15T06:00") (Some "2025-06-15T20:30")).
    repeat split; reflexivity. }
  assert (L : (1749967200000 <= 1750019400000)%Z) by lia.
  assert (B : (1749967200000 + 1800000 <= 1749969000000 <= 1750019400000 - 1800000)%Z) by lia.
  split; [exact H|]. split; [exact L|]. split; [exact B|].
  exact (proj1 (computeDaylight_bands UTC.getTime "2025-06-15T06:30" DAILY _ _ _ H L) B).
Defined.

(** An empty series, stargazing. *)
Lemma computeScoreForHour_empty_witness :
  h_time (hourly no_data) = [] /\
  UTC.getTime "2025-06-15T12:00" = Some 1749988800000%Z /\
  computeScoreForHour UTC.getTime UTC.toISOString no_data "2025-06-15T12:00" stargazing = Ok 50.
Proof.
  split; [reflexivity|]. split; [reflexivity|].
  exact (computeScoreForHour_empty UTC.getTime UTC.toISOString no_data
           "2025-06-15T12:00" stargazing 1749988800000 eq_refl eq_refl).
Defined.



(** The tie between 12:00 and 13:00 goes to 12:00. *)
Example findBestAlternative_tie :
  option_map slot_time
    (match findBestAlternative UTC.getTime rain_then_clear "2025-06-15T11:00" running ten_o_clock with
     | Ok r => r
     | Throw _ => None
     end) = Some "2025-06-15T12:00".
Proof. vm_compute. reflexivity. Qed.

(** A clear hour at 11:00 and rain at 12:00.  For the target 11:00 the
    slot returned scores 80.2, below the 99.2 of the scheduled hour.  For
    the target 11:30 the slot returned is the one of 11:00, the very slot
    the resolver scores as the scheduled hour, with the same 99.2. *)
Lemma alternative_neither_better_nor_another_hour :
  (exists slot original,
     findBestAlternative UTC.getTime clear_then_rain "2025-06-15T11:00" running ten_o_clock
     = Ok (Some slot) /\
     computeScoreForHour UTC.getTime UTC.toISOString clear_then_rain "2025-06-15T11:00" running
     = Ok original /\
     slot_time slot = "2025-06-15T12:00" /\
     slot_score slot == 80.2 /\ original == 99.2 /\
     ~ original < slot_score slot) /\
  (exists slot original scheduled,
     findBestAlternative UTC.getTime clear_then_rain "2025-06-15T11:30" running ten_o_clock
     = Ok (Some slot) /\
     computeScoreForHour UTC.getTime UTC.toISOString clear_then_rain "2025-06-15T11:30" running
     = Ok original /\
     UTC.getTime "2025-06-15T11:30" = Some scheduled /\
     exact_slot (slice0 13 (UTC.toISOString scheduled)) 0 (h_time (hourly clear_then_rain))
     = Some 0%nat /\
     nth_error (h_time (hourly clear_then_rain)) 0 = Some (slot_time slot) /\
     slot_time slot = "2025-06-15T11:00" /\
     ~ original < slot_score slot).
Proof.
  split.
  - eexists. eexists.
    split; [vm_compute; reflexivity|]. split; [vm_compute; reflexivity|].
    split; [reflexivity|]. split; [reflexivity|]. split; [reflexivity|].
    cbn [slot_score]. intro H. vm_compute in H. discriminate H.
  - eexists. eexists. eexists.
    split; [vm_compute; reflexivity|]. split; [vm_compute; reflexivity|].
    split; [vm_compute; reflexivity|]. split; [vm_compute; reflexivity|].
    split; [reflexivity|]. split; [reflexivity|].
    cbn [slot_score]. intro H. vm_compute in H. discriminate H.
Qed.

Lemma findBestAlternative_other_slot_witness :
  UTC.getTime "2025-06-15T11:00" = Some 1749985200000%Z /\
  exists slot,
    findBestAlternative UTC.getTime clear_then_rain "2025-06-15T11:00" running ten_o_clock
    = Ok (Some slot) /\
    slot_time slot <> "2025-06-15T11:00" /\
    UTC.getTime (slot_time slot) <> Some 1749985200000%Z /\
    In (slot_time slot) (h_time (hourly clear_then_rain)) /\
    passes UTC.getTime clear_then_rain "2025-06-15T11:00" running ten_o_clock (slot_time slot)
    = true.
Proof.
  split; [reflexivity|].
  eexists. split; [vm_compute; reflexivity|].
  refine (findBestAlternative_other_slot UTC.getTime clear_then_rain "2025-06-15T11:00"
            running ten_o_clock 1749985200000 _ eq_refl _).
  vm_compute. reflexivity.
Defined.

(** A record whose flag is set, then two wakes that each find the score
    down from 90 to the neutral 50. *)
Lemma alarm_notifies_once_witness :
  alert_flag alerted_store = Some 1%Z /\
  (List.length (deliveries (snd (wakes UTC.getTime UTC.toISOString alerted_store two_crossings)))
   <= 1)%nat /\
  emails (snd (wakes UTC.getTime UTC.toISOString alerted_store two_crossings)) = [].
Proof.
  destruct (alarm_notifies_once UTC.getTime UTC.toISOString alerted_store two_crossings)
    as [Hone Hnone].
  split; [reflexivity|]. split; [exact Hone | exact (Hnone eq_refl)].
Defined.

(** The same two wakes on a record whose flag is clear: the first one
    notifies and sets the flag, the second one does not notify. *)
Example one_notification_for_two_crossings :
  alert_flag (fst (wakes UTC.getTime UTC.toISOString fresh_store two_crossings)) = Some 1%Z /\
  List.length (emails (snd (wakes UTC.getTime UTC.toISOString fresh_store two_crossings)))
  = 1%nat /\
  List.length (deliveries (snd (wakes UTC.getTime UTC.toISOString fresh_store two_crossings)))
  = 1%nat.
Proof. vm_compute. repeat split; reflexivity. Qed.

(** C9.  A wake at 11:50 for a run scheduled at 12:00, the provider
    failing.  The scheduled time has not passed, and the handler's comment
    reads "Schedule next alarm in 30 minutes (if event hasn't passed)"; what
    the handler tests is that the next wake, 12:20, comes before the
    scheduled time: no wake is armed, and none will find the record after
    the event to delete it. *)
Lemma no_rearm_close_to_event :
  getEvent fresh_store = Some (sample_row 0) /\
  UTC.getTime (scheduled_time (sample_row 0)) = Some noon /\
  (w_now ten_to_noon <= noon)%Z /\
  pending_alarm (fst (wake UTC.getTime UTC.toISOString fresh_store ten_to_noon)) = None /\
  pending_alarm (fst (wake UTC.getTime UTC.toISOString fresh_store ten_to_noon))
  <> Some (w_now ten_to_noon + 30 * 60 * 1000)%Z /\
  getEvent (fst (wake UTC.getTime UTC.toISOString fresh_store ten_to_noon))
  = Some (sample_row 0).
Proof.
  split; [reflexivity|]. split; [reflexivity|].
  split; [vm_compute; discriminate|]. split; [reflexivity|].
  split; [vm_compute; discriminate | reflexivity].
Qed.

(** A wake at 10:00 for the same run, the provider failing: the next wake
    is armed for 10:30. *)
Lemma alarm_rearms_witness :
  getEvent fresh_store = Some (sample_row 0) /\
  UTC.getTime (scheduled_time (sample_row 0)) = Some noon /\
  (w_now at_ten <= noon)%Z /\
  pending_alarm (fst (wake UTC.getTime UTC.toISOString fresh_store at_ten)) =
  if (w_now at_ten + 30 * 60 * 1000 <? noon)%Z
  then Some (w_now at_ten + 30 * 60 * 1000)%Z
  else None.
Proof.
  assert (L : (w_now at_ten <= noon)%Z) by (vm_compute; discriminate).
  split; [reflexivity|]. split; [reflexivity|]. split; [exact L|].
  exact (alarm_rearms UTC.getTime UTC.toISOString fresh_store at_ten (sample_row 0) noon
           eq_refl eq_refl L).
Defined.


(** ** The further properties on the sample data *)

Lemma uv_curve_ascending : ascending uv_curve.
Proof.
  unfold ascending, uv_curve.
  repeat (constructor; [|repeat constructor; reflexivity]). constructor.
Qed.

Lemma uv_curve_outputs : outputs_within 0 100 uv_curve.
Proof. unfold outputs_within, uv_curve. repeat constructor; discriminate. Qed.

(** A UV index of 3, between the breakpoints at 2 and 5. *)
Lemma interpolate_linear_witness :
  ascending ([(0, 100)] ++ (2, 100) :: (5, 75) :: [(7, 45); (8, 15); (11, 0)]) /\
  2 <= 3 <= 5 /\
  exists y,
    interpolate (Some 3) ([(0, 100)] ++ (2, 100) :: (5, 75) :: [(7, 45); (8, 15); (11, 0)])
    = Ok y /\
    y == on_segment 2 100 5 75 3.
Proof.
  assert (S : 2 <= 3 <= 5) by (split; discriminate).
  split; [exact uv_curve_ascending|]. split; [exact S|].
  exact (interpolate_linear [(0, 100)] [(7, 45); (8, 15); (11, 0)] 2 100 5 75 3
           uv_curve_ascending S).
Defined.

(** A UV index of 7, a breakpoint. *)
Lemma interpolate_at_breakpoint_witness :
  ascending ([(0, 100); (2, 100); (5, 75)] ++ (7, 45) :: [(8, 15); (11, 0)]) /\
  exists r,
    interpolate (Some 7) ([(0, 100); (2, 100); (5, 75)] ++ (7, 45) :: [(8, 15); (11, 0)])
    = Ok r /\ r == 45.
Proof.
  split; [exact uv_curve_ascending|].
  exact (interpolate_at_breakpoint [(0, 100); (2, 100); (5, 75)] [(8, 15); (11, 0)] 7 45
           uv_curve_ascending).
Defined.

Lemma interpolate_within_witness :
  outputs_within 0 100 ((0, 100) :: [(2, 100); (5, 75); (7, 45); (8, 15); (11, 0)]) /\
  exists y,
    interpolate (Some 6) ((0, 100) :: [(2, 100); (5, 75); (7, 45); (8, 15); (11, 0)]) = Ok y /\
    0 <= y <= 100 /\
    (0 <= 0 -> 100 <= 100 -> clamp y == y).
Proof.
  split; [exact uv_curve_outputs|].
  exact (interpolate_within (Some 6) (0, 100) [(2, 100); (5, 75); (7, 45); (8, 15); (11, 0)]
           0 100 uv_curve_outputs).
Defined.

(** Code 4 is no WMO code of the tables. *)
Lemma unmapped_weather_code_witness :
  unmapped_code (Some 4) = true /\
  scoreWeatherCode (Some 4) = 50 /\
  scoreWeatherCodeCycling (Some 4) = 50 /\
  scoreWeatherCodeStargazing (Some 4) = 50 /\
  scoreWeatherCodeDogWalking (Some 4) = 50.
Proof.
  split; [reflexivity|].
  exact (unmapped_weather_code (Some 4) eq_refl).
Defined.

(** The baseline hour at night (0.3) and by day (1.0). *)
Lemma computeScore_monotone_in_daylight_witness :
  0.3 <= 1.0 /\
  exists s1 s2,
    computeScore (with_daylight_factor makeHour 0.3) running = Ok s1 /\
    computeScore (with_daylight_factor makeHour 1.0) running = Ok s2 /\
    score s1 <= score s2.
Proof.
  assert (H : 0.3 <= 1.0) by discriminate.
  split; [exact H|].
  exact (computeScore_monotone_in_daylight makeHour running 0.3 1.0 H).
Defined.

Lemma rating_is_ratingLabel_witness :
  exists s,
    computeScore makeHour running = Ok s /\
    ratingLabel (score s) = rating_string (rating s).
Proof.
  eexists. split; [vm_compute; reflexivity|].
  refine (rating_is_ratingLabel makeHour running _ _). vm_compute. reflexivity.
Defined.

(** 20:30, the sunset instant of the sample day: unlit twilight. *)
Lemma computeDarkness_bands_witness :
  day_known UTC.getTime "2025-06-15T20:30" DAILY 1750019400000 1749967200000 1750019400000 /\
  (1749967200000 <= 1750019400000)%Z /\
  ((1749967200000 - 1800000 <= 1750019400000 <= 1749967200000)%Z \/
   (1750019400000 <= 1750019400000 <= 1750019400000 + 1800000)%Z) /\
  computeDarkness UTC.getTime "2025-06-15T20:30" DAILY = mkDaylight false 0.3.
Proof.
  assert (H : day_known UTC.getTime "2025-06-15T20:30" DAILY
                        1750019400000 1749967200000 1750019400000).
  { exists (mkDayRow "2025-06-15" (Some "2025-06-15T06:00") (Some "2025-06-15T20:30")).
    repeat split; reflexivity. }
  assert (L : (1749967200000 <= 1750019400000)%Z) by lia.
  assert (B : (1749967200000 - 1800000 <= 1750019400000 <= 1749967200000)%Z \/
              (1750019400000 <= 1750019400000 <= 1750019400000 + 1800000)%Z) by lia.
  split; [exact H|]. split; [exact L|]. split; [exact B|].
  exact (proj1 (proj2 (computeDarkness_bands UTC.getTime "2025-06-15T20:30" DAILY _ _ _ H L))
               B).
Defined.

(** An hour of the next day, which the table does not have. *)
Lemma missing_day_fails_open_witness :
  Forall (fun d => date d <> slice0 10 "2025-06-16T12:00") DAILY /\
  computeDaylight UTC.getTime "2025-06-16T12:00" DAILY = mkDaylight true 1.0 /\
  computeDarkness UTC.getTime "2025-06-16T12:00" DAILY = mkDaylight false 0.05.
Proof.
  assert (H : Forall (fun d => date d <> slice0 10 "2025-06-16T12:00") DAILY).
  { repeat constructor. discriminate. }
  split; [exact H|].
  exact (missing_day_fails_open UTC.getTime "2025-06-16T12:00" DAILY H).
Defined.

(** A time with letters for its hour, on the sample day. *)
Lemma unparseable_hour_witness :
  find_day (slice0 10 "2025-06-15Tnoon") DAILY
  = Some (mkDayRow "2025-06-15" (Some "2025-06-15T06:00") (Some "2025-06-15T20:30")) /\
  UTC.getTime "2025-06-15Tnoon" = None /\
  computeDaylight UTC.getTime "2025-06-15Tnoon" DAILY = mkDaylight false 0.3 /\
  computeDarkness UTC.getTime "2025-06-15Tnoon" DAILY = mkDaylight true 0.05.
Proof.
  split; [reflexivity|]. split; [reflexivity|].
  exact (unparseable_hour UTC.getTime "2025-06-15Tnoon" DAILY _ eq_refl eq_refl).
Defined.

(** A target at 12:40, between the two slots of the series. *)
Lemma computeScoreForHour_in_range_witness :
  UTC.getTime "2025-06-15T12:40" = Some 1749991200000%Z /\
  exists s,
    computeScoreForHour UTC.getTime UTC.toISOString clear_then_rain "2025-06-15T12:40" running
    = Ok s /\
    0 <= s <= 100 /\
    (s = 50 \/
     exists i t, nth_error (h_time (hourly clear_then_rain)) i = Some t /\
                 s = score_at UTC.getTime clear_then_rain running i t).
Proof.
  split; [reflexivity|].
  exact (computeScoreForHour_in_range UTC.getTime UTC.toISOString clear_then_rain
           "2025-06-15T12:40" running 1749991200000 eq_refl).
Defined.

Lemma findBestAlternative_in_window_witness :
  exists slot,
    findBestAlternative UTC.getTime clear_then_rain "2025-06-15T11:00" running ten_o_clock
    = Ok (Some slot) /\
    slice0 10 (slot_time slot) = slice0 10 "2025-06-15T11:00" /\
    dl_is_daylight (light_for UTC.getTime running (slot_time slot)
                              (dailyList_of clear_then_rain))
    = negb (Mode_eqb running stargazing) /\
    forall tMs, UTC.getTime (slot_time slot) = Some tMs ->
      (ten_o_clock < tMs)%Z /\
      forall target, UTC.getTime "2025-06-15T11:00" = Some target ->
        (Z.abs (tMs - target) <= 4 * 60 * 60 * 1000)%Z /\ tMs <> target.
Proof.
  eexists. split; [vm_compute; reflexivity|].
  refine (findBestAlternative_in_window UTC.getTime clear_then_rain "2025-06-15T11:00"
            running ten_o_clock _ _).
  vm_compute. reflexivity.
Defined.

Lemma findBestAlternative_parsed_slot_witness :
  exists slot,
    findBestAlternative UTC.getTime clear_then_rain "2025-06-15T11:00" running ten_o_clock
    = Ok (Some slot) /\
    find_day (slice0 10 (slot_time slot)) (dailyList_of clear_then_rain)
    = Some (mkDayRow "2025-06-15" (Some "2025-06-15T06:00") (Some "2025-06-15T20:30")) /\
    UTC.getTime (slot_time slot) <> None.
Proof.
  eexists. split; [vm_compute; reflexivity|]. split; [reflexivity|].
  eapply (findBestAlternative_parsed_slot UTC.getTime clear_then_rain "2025-06-15T11:00"
            running ten_o_clock).
  - vm_compute. reflexivity.
  - reflexivity.
Defined.

(** A wake at 13:00 for the run of noon, then the two wakes again. *)
Lemma wake_after_event_terminates_witness :
  getEvent fresh_store = Some (sample_row 0) /\
  UTC.getTime (scheduled_time (sample_row 0)) = Some noon /\
  (noon < w_now at_one)%Z /\
  wakes UTC.getTime UTC.toISOString fresh_store (at_one :: two_crossings)
  = (empty_storage, []) /\
  handleStatus (fst (wakes UTC.getTime UTC.toISOString fresh_store (at_one :: two_crossings)))
  = TextResponse 404 "No event".
Proof.
  assert (L : (noon < w_now at_one)%Z) by reflexivity.
  split; [reflexivity|]. split; [reflexivity|]. split; [exact L|].
  exact (wake_after_event_terminates UTC.getTime UTC.toISOString fresh_store at_one
           two_crossings (sample_row 0) noon eq_refl eq_refl L).
Defined.

Lemma no_credential_no_notification_witness :
  getEvent (mkStorage [keyless_row] None) = Some keyless_row /\
  resend_api_key keyless_row = EmptyString /\
  emails (snd (wakes UTC.getTime UTC.toISOString (mkStorage [keyless_row] None)
                     two_crossings)) = [].
Proof.
  split; [reflexivity|]. split; [reflexivity|].
  exact (no_credential_no_notification UTC.getTime UTC.toISOString
           (mkStorage [keyless_row] None) two_crossings keyless_row eq_refl eq_refl).
Defined.

(** The run scored 90 at scheduling; at 10:00 the hour of noon scores 80.2,
    less than 15 points below. *)
Lemma small_drop_no_notification_witness :
  getEvent fresh_store = Some (sample_row 0) /\
  UTC.getTime (scheduled_time (sample_row 0)) = Some noon /\
  (w_now clear_at_ten <= noon)%Z /\
  w_fetchForecast clear_at_ten = Ok clear_then_rain /\
  (exists cur,
     computeScoreForHour UTC.getTime UTC.toISOString clear_then_rain
                         (scheduled_time (sample_row 0)) (mode (sample_row 0)) = Ok cur /\
     initial_score (sample_row 0) - cur < 15) /\
  emails (snd (wake UTC.getTime UTC.toISOString fresh_store clear_at_ten)) = [] /\
  alert_flag (fst (wake UTC.getTime UTC.toISOString fresh_store clear_at_ten))
  = alert_flag fresh_store.
Proof.
  assert (L : (w_now clear_at_ten <= noon)%Z) by (vm_compute; discriminate).
  assert (C : exists cur,
             computeScoreForHour UTC.getTime UTC.toISOString clear_then_rain
                                 (scheduled_time (sample_row 0)) (mode (sample_row 0)) = Ok cur /\
             initial_score (sample_row 0) - cur < 15).
  { eexists. split; [vm_compute; reflexivity | reflexivity]. }
  split; [reflexivity|]. split; [reflexivity|]. split; [exact L|]. split; [reflexivity|].
  split; [exact C|].
  destruct C as (cur & Hcur & Hdrop).
  exact (small_drop_no_notification UTC.getTime UTC.toISOString fresh_store clear_at_ten
           (sample_row 0) clear_then_rain cur noon eq_refl eq_refl L eq_refl Hcur Hdrop).
Defined.

(** Initialized at 09:00 for noon: two hours before the event is 10:00,
    which is also one hour from now. *)
Lemma first_alarm_bounds_witness :
  UTC.getTime (b_scheduledTime sample_body) = Some noon /\
  exists at_,
    snd (handleInitialize UTC.getTime fresh_store sample_body (ten_o_clock - 3600000)) = Ok tt /\
    pending_alarm (fst (handleInitialize UTC.getTime fresh_store sample_body
                                         (ten_o_clock - 3600000))) = Some at_ /\
    (ten_o_clock - 3600000 + 60 * 1000 <= at_ <= ten_o_clock - 3600000 + 60 * 60 * 1000)%Z /\
    ((ten_o_clock - 3600000 + 60 * 1000 <= noon - 2 * 60 * 60 * 1000
      <= ten_o_clock - 3600000 + 60 * 60 * 1000)%Z ->
     at_ = (noon - 2 * 60 * 60 * 1000)%Z).
Proof.
  split; [reflexivity|].
  exact (first_alarm_bounds UTC.getTime fresh_store sample_body (ten_o_clock - 3600000) noon
           eq_refl).
Defined.

Lemma initialize_then_status_witness :
  (forall r, In r (event alerted_store) -> id r = b_id sample_body) /\
  UTC.getTime (b_scheduledTime sample_body) = Some noon /\
  exists st',
    ScheduledRun_fetch UTC.getTime alerted_store
                       (mkRequest "/initialize" "POST" (Some sample_body)) ten_o_clock
    = (st', Responds InitializedJson) /\
    ScheduledRun_fetch UTC.getTime st' (mkRequest "/status" "GET" None) (ten_o_clock + 1)
    = (st', Responds (StatusResponse (status_of_body sample_body))).
Proof.
  assert (H : forall r, In r (event alerted_store) -> id r = b_id sample_body).
  { intros r [<-|[]]. reflexivity. }
  split; [exact H|]. split; [reflexivity|].
  exact (initialize_then_status UTC.getTime alerted_store sample_body ten_o_clock
           (ten_o_clock + 1) noon H eq_refl).
Defined.

(** A run on the equator. *)
Lemma handleSchedule_missing_fields_witness :
  (sb_email equator_schedule = EmptyString \/ sb_scheduledTime equator_schedule = EmptyString \/
   sb_lat equator_schedule == 0 \/ sb_lon equator_schedule == 0 \/
   sb_tz equator_schedule = EmptyString) /\
  handleSchedule UTC.getTime UTC.toISOString sample_env equator_schedule schedule_world
  = (SCHEDULED_RUN sample_env, MissingFields).
Proof.
  assert (H : sb_email equator_schedule = EmptyString \/
              sb_scheduledTime equator_schedule = EmptyString \/
              sb_lat equator_schedule == 0 \/ sb_lon equator_schedule == 0 \/
              sb_tz equator_schedule = EmptyString).
  { right; right; left. reflexivity. }
  split; [exact H|].
  exact (handleSchedule_missing_fields UTC.getTime UTC.toISOString sample_env equator_schedule
           schedule_world H).
Defined.

Lemma handleSchedule_failure_witness :
  has_required_fields garbled_schedule = true /\
  UTC.getTime (sb_scheduledTime garbled_schedule) = None /\
  exists t,
    handleSchedule UTC.getTime UTC.toISOString sample_env garbled_schedule schedule_world
    = (SCHEDULED_RUN sample_env, Failed t).
Proof.
  split; [reflexivity|]. split; [reflexivity|].
  exact (handleSchedule_failure UTC.getTime UTC.toISOString sample_env garbled_schedule
           schedule_world eq_refl (or_intror eq_refl)).
Defined.


(** The same request without a location name: 500, and no object. *)
Example handleSchedule_without_location_name :
  has_required_fields nameless_schedule = true /\
  handleSchedule UTC.getTime UTC.toISOString sample_env nameless_schedule schedule_world
  = (SCHEDULED_RUN sample_env, Failed SqlError).
Proof. split; reflexivity. Qed.

(** An id that was never scheduled. *)
Lemma handleGetStatus_not_found_witness :
  event (SCHEDULED_RUN sample_env "u2") = [] /\
  handleGetStatus UTC.getTime "u2" sample_env = EventNotFound.
Proof.
  split; [reflexivity|].
  exact (handleGetStatus_not_found UTC.getTime "u2" sample_env eq_refl).
Defined.

(** At 10:00 nothing is known of noon (score 50, down from 90) and the mail
    provider is down: the attempt is logged and the record is left for the
    next wake. *)
Lemma wake_notification_attempt_witness :
  getEvent fresh_store = Some (sample_row 0) /\
  UTC.getTime (scheduled_time (sample_row 0)) = Some noon /\
  (w_now mail_down_at_ten <= noon)%Z /\
  w_fetchForecast mail_down_at_ten = Ok no_data /\
  computeScoreForHour UTC.getTime UTC.toISOString no_data (scheduled_time (sample_row 0))
                      (mode (sample_row 0)) = Ok 50 /\
  (exists k : Z, initial_score (sample_row 0) == inject_Z k / 10) /\
  15 < initial_score (sample_row 0) - 50 /\
  alert_sent (sample_row 0) = 0%Z /\
  truthy (resend_api_key (sample_row 0)) = true /\
  findBestAlternative UTC.getTime no_data (scheduled_time (sample_row 0))
                      (mode (sample_row 0)) (w_now_search mail_down_at_ten) = Ok None /\
  snd (wake UTC.getTime UTC.toISOString fresh_store mail_down_at_ten)
  = [Email (notification_of (sample_row 0) 50 None) (resend_api_key (sample_row 0)) false;
     ConsoleError SendError] /\
  event (fst (wake UTC.getTime UTC.toISOString fresh_store mail_down_at_ten))
  = event fresh_store.
Proof.
  assert (L : (w_now mail_down_at_ten <= noon)%Z) by (vm_compute; discriminate).
  assert (T : exists k : Z, initial_score (sample_row 0) == inject_Z k / 10)
    by (exists 900%Z; reflexivity).
  assert (D : 15 < initial_score (sample_row 0) - 50) by reflexivity.
  split; [reflexivity|]. split; [reflexivity|]. split; [exact L|]. split; [reflexivity|].
  split; [reflexivity|]. split; [exact T|]. split; [exact D|]. split; [reflexivity|].
  split; [reflexivity|]. split; [reflexivity|].
  exact (wake_notification_attempt UTC.getTime UTC.toISOString fresh_store mail_down_at_ten
           (sample_row 0) no_data noon 50 None eq_refl eq_refl L eq_refl eq_refl T D
           eq_refl eq_refl eq_refl).
Defined.

Lemma computeScoreForHour_nothing_resolved_witness :
  UTC.getTime "2025-06-15T12:00" = Some noon /\
  Forall (fun t => slice0 13 t <> slice0 13 (UTC.toISOString noon) /\ UTC.getTime t = None)
         (h_time (hourly garbled_forecast)) /\
  computeScoreForHour UTC.getTime UTC.toISOString garbled_forecast "2025-06-15T12:00" cycling
  = Ok 50.
Proof.
  assert (H : Forall (fun t => slice0 13 t <> slice0 13 (UTC.toISOString noon) /\
                               UTC.getTime t = None)
                     (h_time (hourly garbled_forecast))).
  { repeat constructor. vm_compute. discriminate. }
  split; [reflexivity|]. split; [exact H|].
  exact (computeScoreForHour_nothing_resolved UTC.getTime UTC.toISOString garbled_forecast
           "2025-06-15T12:00" cycling noon eq_refl H).
Defined.

(** At 14:00 the slots of 11:00, 12:00 and 13:00 are all past. *)
Lemma findBestAlternative_none_in_past_witness :
  Forall (fun t => exists tMs, UTC.getTime t = Some tMs /\ (tMs <= two_o_clock)%Z)
         (h_time (hourly rain_then_clear)) /\
  findBestAlternative UTC.getTime rain_then_clear "2025-06-15T11:00" running two_o_clock
  = Ok None.
Proof.
  assert (H : Forall (fun t => exists tMs, UTC.getTime t = Some tMs /\ (tMs <= two_o_clock)%Z)
                     (h_time (hourly rain_then_clear))).
  { repeat constructor; eexists; (split; [reflexivity | vm_compute; discriminate]). }
  split; [exact H|].
  exact (findBestAlternative_none_in_past UTC.getTime rain_then_clear "2025-06-15T11:00"
           running two_o_clock H).
Defined.
